(** * Hakuna time-tracking integration: API gateway and refresh aggregator

    A shallow embedding of [custom_components/hakuna/api.py],
    [coordinator.py], [button.py], [binary_sensor.py], [sensor.py] and
    [config_flow.py], together with the properties the specification
    states about them and further properties read off the code.

    Python values that travel through the integration are JSON payloads;
    they are modelled by the type [json].  Dictionaries are finite maps
    with string keys ([gmap string _]); exceptions are an explicit sum
    [result]; [await] is sequencing in the [result] monad. *)

From Stdlib Require Import ZArith String Ascii List Bool Lia.
From Stdlib Require Import DecimalString DecimalZ.
From stdpp Require Import base option gmap strings list fin_maps.

Set Warnings "-register-all".

Local Open Scope Z_scope.
Local Open Scope string_scope.

(** ** Python values *)

Module Py.

(** JSON payloads as Python sees them after [response.json()].  Numbers
    are restricted to integers: the integration only ever inspects
    integer fields (ids, counters). *)
Inductive json : Type :=
| JNull
| JBool (b : bool)
| JNum (n : Z)
| JStr (s : string)
| JArr (l : list json)
| JObj (d : gmap string json).

(** Python truth value testing ([if x], [x and y], [not x]). *)
Definition truthy (v : json) : bool :=
  match v with
  | JNull => false
  | JBool b => b
  | JNum n => negb (Z.eqb n 0)
  | JStr s => negb (String.eqb s "")
  | JArr l => match l with [] => false | _ :: _ => true end
  | JObj d => negb (Nat.eqb (size d) 0)
  end.

(** [x is None] *)
Definition is_none (v : json) : bool :=
  match v with JNull => true | _ => false end.

(** [d.get(k)] on a dictionary: [None] when the key is missing. *)
Definition dict_get (d : gmap string json) (k : string) : json :=
  default JNull (d !! k).

(** Exceptions.  [HakunaAuthError] and [HakunaRateLimitError] are
    subclasses of [HakunaApiError]; [ClientError] is aiohttp's transport
    error; [UpdateFailed] is the host's refresh failure; [OtherError]
    stands for every other Python exception ([AttributeError],
    [TypeError], a JSON decoding error, ...). *)
Inductive exn : Type :=
| HakunaApiError (msg : string)
| HakunaAuthError (msg : string)
| HakunaRateLimitError (msg : string)
| ClientError (msg : string)
| UpdateFailed (msg : string)
| OtherError (msg : string).

(** [isinstance(e, HakunaApiError)] *)
Definition is_HakunaApiError (e : exn) : bool :=
  match e with
  | HakunaApiError _ | HakunaAuthError _ | HakunaRateLimitError _ => true
  | _ => false
  end.

(** [str(e)] *)
Definition str_exn (e : exn) : string :=
  match e with
  | HakunaApiError m | HakunaAuthError m | HakunaRateLimitError m
  | ClientError m | UpdateFailed m | OtherError m => m
  end.

(** The outcome of a call: a value or a raised exception. *)
Inductive result (A : Type) : Type :=
| Ok (a : A)
| Raise (e : exn).
Arguments Ok {A} a.
Arguments Raise {A} e.

(** Sequencing: an exception raised by the first call skips the rest. *)
#[export] Instance result_ret : MRet result := fun A a => Ok a.
#[export] Instance result_bind : MBind result := fun A B k m =>
  match m with
  | Ok a => k a
  | Raise e => Raise e
  end.

(** [try: m except HakunaApiError: dflt] *)
Definition except_api {A} (m : result A) (dflt : A) : result A :=
  match m with
  | Ok a => Ok a
  | Raise e => if is_HakunaApiError e then Ok dflt else Raise e
  end.

(** [v.get(k)]: only dictionaries have the method. *)
Definition py_get (v : json) (k : string) : result json :=
  match v with
  | JObj d => Ok (dict_get d k)
  | _ => Raise (OtherError "AttributeError: object has no attribute 'get'")
  end.

(** [for x in v]: the sequence of items a [for] loop visits.  A list
    yields its elements, a string its characters, a dictionary its keys;
    the other values are not iterable. *)
Definition py_iter (v : json) : result (list json) :=
  match v with
  | JArr l => Ok l
  | JStr s => Ok ((fun c => JStr (String c EmptyString)) <$> list_ascii_of_string s)
  | JObj d => Ok (JStr <$> (map_to_list d).*1)
  | _ => Raise (OtherError "TypeError: object is not iterable")
  end.

(** [str(n)] for an integer. *)
Definition str_int (n : Z) : string :=
  NilZero.string_of_int (Z.to_int n).

(** [v.get(k, dflt)] *)
Definition py_get_default (v : json) (k : string) (dflt : json) : result json :=
  match v with
  | JObj d => Ok (default dflt (d !! k))
  | _ => Raise (OtherError "AttributeError: object has no attribute 'get'")
  end.

(** [v[k]] for a string key [k]: a dictionary without the key raises
    [KeyError]; no other JSON value can be indexed by a string. *)
Definition py_getitem (v : json) (k : string) : result json :=
  match v with
  | JObj d =>
      match d !! k with
      | Some w => Ok w
      | None => Raise (OtherError "KeyError")
      end
  | _ => Raise (OtherError "TypeError: bad index")
  end.

(** [a == b].  [bool] is a subclass of [int], so [True == 1]; lists
    compare element by element, dictionaries key by key. *)
Fixpoint py_eq (a b : json) {struct a} : bool :=
  match a, b with
  | JNull, JNull => true
  | JBool x, JBool y => Bool.eqb x y
  | JBool x, JNum y => Z.eqb (if x then 1 else 0) y
  | JNum x, JBool y => Z.eqb x (if y then 1 else 0)
  | JNum x, JNum y => Z.eqb x y
  | JStr x, JStr y => String.eqb x y
  | JArr x, JArr y =>
      (fix go (x y : list json) : bool :=
         match x, y with
         | [], [] => true
         | a :: x', b :: y' => py_eq a b && go x' y'
         | _, _ => false
         end) x y
  | JObj x, JObj y =>
      Nat.eqb (size x) (size y) &&
      map_fold (fun k v acc =>
                  acc && match y !! k with
                         | Some w => py_eq v w
                         | None => false
                         end) true x
  | _, _ => false
  end.

(** [len(v)] *)
Definition py_len (v : json) : result Z :=
  match v with
  | JArr l => Ok (Z.of_nat (length l))
  | JStr s => Ok (Z.of_nat (String.length s))
  | JObj d => Ok (Z.of_nat (size d))
  | _ => Raise (OtherError "TypeError: object has no len()")
  end.

End Py.
Export Py.

(** ** The API gateway ([api.py]) *)

Module Api.

Definition API_BASE_URL : string := "https://app.hakuna.ch/api/v1".

(** What [session.request(method, url, headers=, params=, json=)] sends. *)
Record Request := {
  req_method : string;
  req_url : string;
  req_headers : gmap string string;
  req_params : option (gmap string json);
  req_json : option (gmap string json)
}.

(** [str.lower()] on the letters of a header name. *)
Definition lower_ascii (c : ascii) : ascii :=
  let n := N_of_ascii c in
  if (N.leb 65 n && N.leb n 90)%bool then ascii_of_N (n + 32) else c.

Fixpoint lower (s : string) : string :=
  match s with
  | EmptyString => EmptyString
  | String c rest => String (lower_ascii c) (lower rest)
  end.

(** [headers.get(name, dflt)] on the header fields of a response, in
    the order received: [aiohttp] compares field names without regard
    to case and returns the first value. *)
Fixpoint headers_get (headers : list (string * string)) (name dflt : string)
  : string :=
  match headers with
  | [] => dflt
  | (field, value) :: rest =>
      if String.eqb (lower field) (lower name) then value
      else headers_get rest name dflt
  end.

(** What the code reads from an [aiohttp] response.  Reading the body
    can itself fail, so [text()] and [json()] are outcomes.  An empty
    body makes [json()] return [None]. *)
Record Response := {
  resp_status : Z;
  resp_headers : list (string * string);
  resp_text : result string;
  resp_json : result json
}.

(** The behaviour of the shared connection session during one exchange:
    the reply (or transport failure) to each request. *)
Definition Session : Type := Request -> result Response.

Record HakunaApiClient := {
  _api_token : string;
  _company : option string;
  _headers : gmap string string
}.

(** [HakunaApiClient.__init__] *)
Definition new_client (api_token : string) (company : option string)
  : HakunaApiClient :=
  {| _api_token := api_token;
     _company := company;
     _headers := {[ "X-Auth-Token" := api_token;
                    "Accept-Version" := "v1";
                    "Content-Type" := "application/json" ]} |}.

(** [except aiohttp.ClientError as err: raise HakunaApiError(...) from err] *)
Definition except_client_error {A} (m : result A) : result A :=
  match m with
  | Raise (ClientError msg) =>
      Raise (HakunaApiError ("Connection error: " ++ msg))
  | other => other
  end.

(** A calendar date ([datetime.date]) and its [isoformat()]. *)
Record date := { year : Z; month : Z; day : Z }.

(** ["%0*d"]: left-pad with zeros up to [width] characters. *)
Definition zfill (width : nat) (s : string) : string :=
  string_of_list_ascii (replicate (width - String.length s) "0"%char) ++ s.

Definition isoformat (d : date) : string :=
  zfill 4 (str_int (year d)) ++ "-" ++ zfill 2 (str_int (month d))
    ++ "-" ++ zfill 2 (str_int (day d)).

(** An argument of type [date | str]. *)
Inductive date_or_str :=
| ADate (d : date)
| AStr (s : string).

(** [result if result else []] *)
Definition or_empty_list (result : json) : json :=
  if truthy result then result else JArr [].

(** The request [_request] hands to [session.request]: the URL is the
    base URL followed by the endpoint, the headers are the client's. *)
Definition build_request (self : HakunaApiClient) (method endpoint : string)
    (params json_data : option (gmap string json)) : Request :=
  let url := API_BASE_URL ++ endpoint in
  {| req_method := method;
     req_url := url;
     req_headers := _headers self;
     req_params := params;
     req_json := json_data |}.

(** A reply by which the service reports no content: status 204, or a
    success status whose body is empty ([json()] then gives [None]) or
    an empty array. *)
Definition reports_no_content (r : Response) : Prop :=
  resp_status r = 204 \/
  (200 <= resp_status r < 300 /\
   (resp_json r = Ok JNull \/ resp_json r = Ok (JArr []))).

Section WithSession.

Context (session : Session).

Definition _request (self : HakunaApiClient) (method endpoint : string)
    (params json_data : option (gmap string json)) : result json :=
  except_client_error (
    response ← session (build_request self method endpoint params json_data);
    if Z.eqb (resp_status response) 401 then
      Raise (HakunaAuthError "Invalid API token")
    else if Z.eqb (resp_status response) 429 then
      let retry_after :=
        headers_get (resp_headers response) "Retry-After" "unknown" in
      Raise (HakunaRateLimitError
               ("Rate limit exceeded. Retry after " ++ retry_after ++ " seconds"))
    else if Z.eqb (resp_status response) 404 then
      (* Timer not running returns 404 *)
      mret JNull
    else if Z.leb 400 (resp_status response) then
      text ← resp_text response;
      Raise (HakunaApiError
               ("API error " ++ str_int (resp_status response) ++ ": " ++ text))
    else if Z.eqb (resp_status response) 204 then
      mret JNull
    else
      resp_json response).

(** *** Timer *)

Definition get_timer (self : HakunaApiClient) : result json :=
  result ← _request self "GET" "/timer" None None;
  (* API returns 200 with date=null when no timer is running *)
  no_date ← (if truthy result
             then d ← py_get result "date"; mret (is_none d)
             else mret false);
  if (no_date : bool) then mret JNull else mret result.

(** *** Overview *)

Definition get_overview (self : HakunaApiClient) (user_id : option Z)
  : result json :=
  let params : gmap string json := ∅ in
  let params := match user_id with
                | Some u => <["user_id" := JNum u]> params
                | None => params
                end in
  _request self "GET" "/overview"
    (if truthy (JObj params) then Some params else None) None.

(** *** Time entries *)

(** The query parameters [get_time_entries] builds before the request. *)
Definition time_entries_params (start_date : date_or_str)
    (end_date : option date_or_str) (user_id : option Z)
  : gmap string json :=
  let start_date := match start_date with
                    | ADate d => isoformat d
                    | AStr s => s
                    end in
  let end_date := match end_date with
                  | None => start_date
                  | Some (ADate d) => isoformat d
                  | Some (AStr s) => s
                  end in
  let params : gmap string json :=
    {[ "start_date" := JStr start_date; "end_date" := JStr end_date ]} in
  match user_id with
  | Some u => <["user_id" := JNum u]> params
  | None => params
  end.

Definition get_time_entries (self : HakunaApiClient)
    (start_date : date_or_str) (end_date : option date_or_str)
    (user_id : option Z) : result json :=
  let params := time_entries_params start_date end_date user_id in
  result ← _request self "GET" "/time_entries" (Some params) None;
  mret (or_empty_list result).

(** *** Absences.  [now_year] is [datetime.now().year]. *)

(** The query parameters [get_absences] builds before the request. *)
Definition absences_params (now_year : Z) (year user_id : option Z)
  : gmap string json :=
  let params : gmap string json := ∅ in
  let params := match year with
                | Some y => <["year" := JNum y]> params
                | None => <["year" := JNum now_year]> params
                end in
  match user_id with
  | Some u => <["user_id" := JNum u]> params
  | None => params
  end.

Definition get_absences (now_year : Z) (self : HakunaApiClient)
    (year user_id : option Z) : result json :=
  let params := absences_params now_year year user_id in
  result ← _request self "GET" "/absences" (Some params) None;
  mret (or_empty_list result).

(** *** Users and presence *)

Definition get_users (self : HakunaApiClient) : result json :=
  result ← _request self "GET" "/users" None None;
  mret (or_empty_list result).

Definition get_presence (self : HakunaApiClient) : result json :=
  result ← _request self "GET" "/presence" None None;
  mret (or_empty_list result).

(** *** Projects and tasks *)

Definition get_projects (self : HakunaApiClient) : result json :=
  result ← _request self "GET" "/projects" None None;
  mret (or_empty_list result).

Definition get_tasks (self : HakunaApiClient) : result json :=
  result ← _request self "GET" "/tasks" None None;
  mret (or_empty_list result).

Definition get_absence_types (self : HakunaApiClient) : result json :=
  result ← _request self "GET" "/absence_types" None None;
  mret (or_empty_list result).

(** *** Timer actions.  An argument that is [None] in Python is
    [JNull] here. *)

(** The dictionary [start_timer] fills before the request. *)
Definition start_timer_data (task_id project_id note : json)
  : gmap string json :=
  let data : gmap string json := ∅ in
  let data := if is_none task_id then data
              else <["task_id" := task_id]> data in
  let data := if is_none project_id then data
              else <["project_id" := project_id]> data in
  let data := if is_none note then data
              else <["note" := note]> data in
  data.

Definition start_timer (self : HakunaApiClient)
    (task_id project_id note : json) : result json :=
  let data := start_timer_data task_id project_id note in
  _request self "POST" "/timer" None
    (if truthy (JObj data) then Some data else None).

Definition stop_timer (self : HakunaApiClient) : result json :=
  _request self "PUT" "/timer" None None.

Definition cancel_timer (self : HakunaApiClient) : result unit :=
  _ ← _request self "DELETE" "/timer" None None;
  mret tt.

(** *** Single time entry, company, ping *)

Definition get_time_entry (self : HakunaApiClient) (entry_id : Z)
  : result json :=
  _request self "GET" ("/time_entries/" ++ str_int entry_id) None None.

Definition get_company (self : HakunaApiClient) : result json :=
  _request self "GET" "/company" None None.

Definition ping (self : HakunaApiClient) : result json :=
  _request self "GET" "/ping" None None.

(** *** Helper *)

Definition is_timer_running (self : HakunaApiClient) : result bool :=
  timer ← get_timer self;
  mret (negb (is_none timer)).

End WithSession.

End Api.
Export Api.

(** ** The refresh aggregator ([coordinator.py]) *)

Module Coordinator.

(** The dictionary a refresh cycle returns; its seven keys are fixed. *)
Record Snapshot := {
  timer : json;
  overview : json;
  presence : json;
  users : json;
  tasks : json;
  default_task_id : json;
  timer_running : bool
}.

(** The coordinator object: the API client it was built with and the
    attributes it inherits from the host's [DataUpdateCoordinator]. *)
Record HakunaDataUpdateCoordinator := {
  api_client : HakunaApiClient;
  data : option Snapshot;
  last_update_success : bool;
  last_exception : option exn
}.

(** The two flags as the loops test them on a task dictionary. *)
Definition flag_default (t : gmap string json) : bool :=
  truthy (dict_get t "default").
Definition flag_archived (t : gmap string json) : bool :=
  truthy (dict_get t "archived").

(** First loop: the first task with [default] set and not [archived]. *)
Fixpoint find_default_task (items : list json) : result json :=
  match items with
  | [] => mret JNull
  | task :: rest =>
      hit ← (dflt ← py_get task "default";
             if truthy dflt
             then archived ← py_get task "archived";
                  mret (negb (truthy archived))
             else mret false);
      if (hit : bool) then py_get task "id" else find_default_task rest
  end.

(** Second loop: the first task that is not [archived]. *)
Fixpoint find_active_task (items : list json) : result json :=
  match items with
  | [] => mret JNull
  | task :: rest =>
      archived ← py_get task "archived";
      if negb (truthy archived) then py_get task "id"
      else find_active_task rest
  end.

(** The "find default task" block of [_async_update_data]. *)
Definition select_default_task (tasks : json) : result json :=
  items ← py_iter tasks;
  default_task_id ← find_default_task items;
  (* Fallback to first non-archived task *)
  if is_none default_task_id && truthy tasks then
    items ← py_iter tasks;
    find_active_task items
  else
    mret default_task_id.

Section WithSession.

Context (session : Session).

Definition _async_update_data (self : HakunaDataUpdateCoordinator)
  : result Snapshot :=
  let attempt : result Snapshot :=
    timer ← get_timer session (api_client self);
    overview ← get_overview session (api_client self) None;
    presence ← except_api (get_presence session (api_client self)) (JArr []);
    users ← except_api (get_users session (api_client self)) (JArr []);
    tasks ← except_api (get_tasks session (api_client self)) (JArr []);
    default_task_id ← select_default_task tasks;
    mret {| timer := timer;
            overview := overview;
            presence := presence;
            users := users;
            tasks := tasks;
            default_task_id := default_task_id;
            timer_running := negb (is_none timer) |} in
  match attempt with
  | Ok snapshot => Ok snapshot
  | Raise (HakunaAuthError msg) =>
      Raise (UpdateFailed ("Authentication failed: " ++ msg))
  | Raise e =>
      if is_HakunaApiError e
      then Raise (UpdateFailed ("Error fetching data: " ++ str_exn e))
      else Raise e
  end.

(** Modelled from the spec: the host framework's refresh step, which is
    not part of this repository.  A cycle that returns a Snapshot
    publishes it in place of the previous one; a cycle that fails leaves
    the previous Snapshot where it is and records the failure for the
    mechanism that reports the refresh outcome. *)
Definition async_refresh (self : HakunaDataUpdateCoordinator)
  : HakunaDataUpdateCoordinator :=
  match _async_update_data self with
  | Ok snapshot =>
      {| api_client := api_client self;
         data := Some snapshot;
         last_update_success := true;
         last_exception := None |}
  | Raise e =>
      {| api_client := api_client self;
         data := data self;
         last_update_success := false;
         last_exception := Some e |}
  end.

End WithSession.

(** [HakunaDataUpdateCoordinator.__init__]: nothing published yet. *)
Definition new_coordinator (api_client : HakunaApiClient)
  : HakunaDataUpdateCoordinator :=
  {| api_client := api_client;
     data := None;
     last_update_success := true;
     last_exception := None |}.

(** The coordinator after a sequence of refresh cycles, each against
    the session behaviour of its own moment. *)
Definition run_cycles (cycles : list Session)
    (self : HakunaDataUpdateCoordinator) : HakunaDataUpdateCoordinator :=
  foldl (fun c session => async_refresh session c) self cycles.

End Coordinator.
Export Coordinator.

(** ** The action buttons ([button.py]) *)

Module Button.

(** The keys of [BUTTON_DESCRIPTIONS]. *)
Definition BUTTON_KEYS : list string :=
  ["start_timer"; "stop_timer"; "cancel_timer"; "refresh"].

(** [HakunaButton.available]; [key] is [self.entity_description.key]. *)
Definition available (coordinator : HakunaDataUpdateCoordinator)
    (key : string) : bool :=
  match data coordinator with
  | None => false
  | Some snapshot =>
      let timer_running := timer_running snapshot in
      (* Start button only available when timer is NOT running *)
      if String.eqb key "start_timer" then negb timer_running
      (* Stop/Cancel buttons only available when timer IS running *)
      else if String.eqb key "stop_timer" || String.eqb key "cancel_timer"
      then timer_running
      else true
  end.

Section WithSession.

Context (session : Session).

(** [HakunaButton.async_press].  [_api_client] is the client the button
    was built with; an exception of the action is logged and raised
    again, so the refresh is not reached.  The closing
    [async_request_refresh] is the host's refresh step. *)
Definition async_press (coordinator : HakunaDataUpdateCoordinator)
    (_api_client : HakunaApiClient) (key : string)
  : result HakunaDataUpdateCoordinator :=
  _ ← (if String.eqb key "start_timer" then
         (* Get default task_id from coordinator data *)
         let task_id := match data coordinator with
                        | Some snapshot => default_task_id snapshot
                        | None => JNull
                        end in
         _ ← start_timer session _api_client task_id JNull JNull;
         mret tt
       else if String.eqb key "stop_timer" then
         _ ← stop_timer session _api_client;
         mret tt
       else if String.eqb key "refresh" then
         mret tt
       else if String.eqb key "cancel_timer" then
         cancel_timer session _api_client
       else
         mret tt);
  (* Refresh data after action *)
  mret (async_refresh session coordinator).

End WithSession.

End Button.
Export Button.

(** ** The binary sensors ([binary_sensor.py]) *)

Module BinarySensor.

(** [HakunaBinarySensor.is_on]; [None] is Python's [None]. *)
Definition is_on (coordinator : HakunaDataUpdateCoordinator) (key : string)
  : option bool :=
  match data coordinator with
  | None => None
  | Some snapshot =>
      if String.eqb key "timer_running" then Some (timer_running snapshot)
      else None
  end.

(** [HakunaBinarySensor.extra_state_attributes] *)
Definition extra_state_attributes (coordinator : HakunaDataUpdateCoordinator)
  : result (gmap string json) :=
  let attrs : gmap string json := ∅ in
  match data coordinator with
  | None => mret attrs
  | Some snapshot =>
      let timer := timer snapshot in
      if truthy timer then
        v ← py_get timer "start_time";
        let attrs := <["start_time" := v]> attrs in
        v ← py_get timer "duration";
        let attrs := <["duration" := v]> attrs in
        v ← py_get timer "duration_in_seconds";
        let attrs := <["duration_seconds" := v]> attrs in
        v ← py_get timer "note";
        let attrs := <["note" := v]> attrs in
        v ← py_get timer "date";
        let attrs := <["date" := v]> attrs in
        task ← py_get timer "task";
        attrs ← (if truthy task then
                   task ← py_getitem timer "task";
                   v ← py_get task "name";
                   let attrs := <["task" := v]> attrs in
                   task ← py_getitem timer "task";
                   v ← py_get task "id";
                   mret (<["task_id" := v]> attrs)
                 else mret attrs);
        project ← py_get timer "project";
        attrs ← (if truthy project then
                   project ← py_getitem timer "project";
                   match project with
                   | JObj _ =>
                       v ← py_get project "name";
                       let attrs := <["project" := v]> attrs in
                       v ← py_get project "id";
                       mret (<["project_id" := v]> attrs)
                   | _ => mret (<["project_id" := project]> attrs)
                   end
                 else mret attrs);
        user ← py_get timer "user";
        attrs ← (if truthy user then
                   user ← py_getitem timer "user";
                   v ← py_get user "name";
                   let attrs := <["user_name" := v]> attrs in
                   user ← py_getitem timer "user";
                   v ← py_get user "id";
                   mret (<["user_id" := v]> attrs)
                 else mret attrs);
        mret attrs
      else mret attrs
  end.

(** What [HakunaTeamMemberSensor.__init__] keeps of its [user]. *)
Record HakunaTeamMemberSensor := {
  _user_id : json;
  _user_name : json
}.



(** The id of a presence member's user, as the loops read it:
    [member.get("user", {}).get("id")]. *)
Definition member_user_id (member : gmap string json) : json :=
  match default (JObj ∅) (member !! "user") with
  | JObj user => dict_get user "id"
  | _ => JNull
  end.

(** The first presence member whose user id equals [user_id], as both
    loops of [HakunaTeamMemberSensor] look it up; the pair is the member
    and its user. *)
Fixpoint find_member (user_id : json) (members : list json)
  : result (option (json * json)) :=
  match members with
  | [] => mret None
  | member :: rest =>
      user ← py_get_default member "user" (JObj ∅);
      id ← py_get user "id";
      if py_eq id user_id then mret (Some (member, user))
      else find_member user_id rest
  end.

(** [HakunaTeamMemberSensor.is_on]; [JNull] is Python's [None]. *)
Definition team_is_on (self : HakunaTeamMemberSensor)
    (coordinator : HakunaDataUpdateCoordinator) : result json :=
  match data coordinator with
  | None => mret JNull
  | Some snapshot =>
      members ← py_iter (presence snapshot);
      found ← find_member (_user_id self) members;
      match found with
      | Some (member, _) =>
          py_get_default member "has_timer_running" (JBool false)
      | None => mret JNull
      end
  end.

(** [HakunaTeamMemberSensor.extra_state_attributes] *)
Definition team_extra_state_attributes (self : HakunaTeamMemberSensor)
    (coordinator : HakunaDataUpdateCoordinator)
  : result (gmap string json) :=
  let attrs : gmap string json :=
    {[ "user_id" := _user_id self; "user_name" := _user_name self ]} in
  match data coordinator with
  | None => mret attrs
  | Some snapshot =>
      members ← py_iter (presence snapshot);
      found ← find_member (_user_id self) members;
      match found with
      | Some (member, user) =>
          v ← py_get member "absent_first_half_day";
          let attrs := <["absent_first_half_day" := v]> attrs in
          v ← py_get member "absent_second_half_day";
          let attrs := <["absent_second_half_day" := v]> attrs in
          v ← py_get_default user "groups" (JArr []);
          let attrs := <["groups" := v]> attrs in
          v ← py_get user "status";
          mret (<["status" := v]> attrs)
      | None => mret attrs
      end
  end.

End BinarySensor.

(** ** The sensors ([sensor.py]) *)

Module Sensor.

(** The keys of [SENSOR_DESCRIPTIONS]. *)
Definition SENSOR_KEYS : list string :=
  ["overtime"; "overtime_seconds"; "vacation_remaining"; "vacation_redeemed";
   "timer_duration"; "timer_duration_seconds"; "timer_start_time";
   "timer_project"; "timer_task"].

(** A sensor state: a JSON value ([JNull] is [None]) or a timestamp. *)
Inductive sensor_value (datetime : Type) : Type :=
| Plain (v : json)
| Timestamp (dt : datetime).
Arguments Plain {datetime} v.
Arguments Timestamp {datetime} dt.

Section WithPython.

(** Two pieces of the Python library the sensors call: [str(x)], and
    the conversion of a "date time" text to a local timestamp
    ([datetime.strptime] with format [%Y-%m-%d %H:%M], made aware of the
    configured time zone), which gives [None] where [strptime] raises
    [ValueError]. *)
Context {datetime : Type}.
Context (py_str : json -> string).
Context (strptime_local : string -> option datetime).

(** [HakunaSensor.native_value]; [key] is [self.entity_description.key]. *)
Definition native_value (coordinator : HakunaDataUpdateCoordinator)
    (key : string) : result (sensor_value datetime) :=
  match data coordinator with
  | None => mret (Plain JNull)
  | Some data =>
      let overview := overview data in
      let timer := timer data in
      if String.eqb key "overtime" then
        v ← py_get overview "overtime"; mret (Plain v)
      else if String.eqb key "overtime_seconds" then
        v ← py_get overview "overtime_in_seconds"; mret (Plain v)
      else if String.eqb key "vacation_remaining" then
        vacation ← py_get_default overview "vacation" (JObj ∅);
        v ← py_get vacation "remaining_days"; mret (Plain v)
      else if String.eqb key "vacation_redeemed" then
        vacation ← py_get_default overview "vacation" (JObj ∅);
        v ← py_get vacation "redeemed_days"; mret (Plain v)
      else if String.eqb key "timer_duration" then
        if truthy timer then
          v ← py_get timer "duration"; mret (Plain v)
        else mret (Plain JNull)
      else if String.eqb key "timer_duration_seconds" then
        if truthy timer then
          v ← py_get timer "duration_in_seconds"; mret (Plain v)
        else mret (Plain JNull)
      else if String.eqb key "timer_start_time" then
        if truthy timer then
          date_str ← py_get timer "date";
          time_str ← py_get timer "start_time";
          if truthy date_str && truthy time_str then
            match strptime_local (py_str date_str ++ " " ++ py_str time_str) with
            | Some dt => mret (Timestamp dt)
            | None => mret (Plain JNull)
            end
          else mret (Plain JNull)
        else mret (Plain JNull)
      else if String.eqb key "timer_project" then
        has_project ← (if truthy timer
                       then p ← py_get timer "project"; mret (truthy p)
                       else mret false);
        if (has_project : bool) then
          project ← py_getitem timer "project";
          match project with
          | JObj _ => v ← py_get project "name"; mret (Plain v)
          | _ => mret (Plain (JStr (py_str project)))
          end
        else mret (Plain JNull)
      else if String.eqb key "timer_task" then
        has_task ← (if truthy timer
                    then t ← py_get timer "task"; mret (truthy t)
                    else mret false);
        if (has_task : bool) then
          task ← py_getitem timer "task";
          v ← py_get task "name"; mret (Plain v)
        else mret (Plain JNull)
      else mret (Plain JNull)
  end.

End WithPython.

(** The list comprehension [[p["user"]["name"] for p in presence if
    cond(p)]]. *)
Fixpoint user_names_where (cond : json -> result bool) (items : list json)
  : result (list json) :=
  match items with
  | [] => mret []
  | p :: rest =>
      keep ← cond p;
      if (keep : bool) then
        user ← py_getitem p "user";
        name ← py_getitem user "name";
        names ← user_names_where cond rest;
        mret (name :: names)
      else user_names_where cond rest
  end.

(** [p.get("has_timer_running") and p.get("user")] *)
Definition is_present (p : json) : result bool :=
  running ← py_get p "has_timer_running";
  if truthy running then user ← py_get p "user"; mret (truthy user)
  else mret false.

(** [(p.get("absent_first_half_day") or p.get("absent_second_half_day"))
    and p.get("user")] *)
Definition is_absent (p : json) : result bool :=
  first ← py_get p "absent_first_half_day";
  away ← (if truthy first then mret true
          else second ← py_get p "absent_second_half_day";
               mret (truthy second));
  if (away : bool) then user ← py_get p "user"; mret (truthy user)
  else mret false.

(** [HakunaSensor.extra_state_attributes] *)
Definition extra_state_attributes (coordinator : HakunaDataUpdateCoordinator)
    (key : string) : result (gmap string json) :=
  let attrs : gmap string json := ∅ in
  match data coordinator with
  | None => mret attrs
  | Some data =>
      let timer := timer data in
      if String.eqb key "timer_duration" && truthy timer then
        v ← py_get timer "note";
        let attrs := <["note" := v]> attrs in
        user ← py_get timer "user";
        if truthy user then
          user ← py_getitem timer "user";
          v ← py_get user "name";
          let attrs := <["user_name" := v]> attrs in
          user ← py_getitem timer "user";
          v ← py_get user "id";
          mret (<["user_id" := v]> attrs)
        else mret attrs
      else if String.eqb key "team_present_count" then
        let presence := presence data in
        items ← py_iter presence;
        present_users ← user_names_where is_present items;
        items ← py_iter presence;
        absent_users ← user_names_where is_absent items;
        let attrs := <["present_users" := JArr present_users]> attrs in
        let attrs := <["absent_users" := JArr absent_users]> attrs in
        total ← py_len presence;
        mret (<["total_users" := JNum total]> attrs)
      else mret attrs
  end.

End Sensor.

(** ** The setup dialogue ([config_flow.py]) *)

Module ConfigFlow.

(** What a step of the flow hands back to the host: the form again,
    with its errors, or the entry to create. *)
Inductive FlowResult : Type :=
| ShowForm (step_id : string) (errors : gmap string string)
| CreateEntry (title : string) (data : gmap string json).

Section WithHost.

(** [session] is the host's shared session; [py_str] and [py_hash] are
    Python's [str] and [hash]; [configured] tells which unique ids the
    host already has an entry for. *)
Context (session : Session).
Context (py_str : json -> string).
Context (py_hash : string -> Z).
Context (configured : string -> bool).

(** The host's [_abort_if_unique_id_configured], after
    [async_set_unique_id]: it raises the host's [AbortFlow]. *)
Definition _abort_if_unique_id_configured (unique_id : string) : result unit :=
  if configured unique_id
  then Raise (OtherError "AbortFlow: already_configured")
  else mret tt.

(** [HakunaConfigFlow.async_step_user]; [user_input] is the token the
    form's schema requires, [None] before the form is filled in. *)
Definition async_step_user (user_input : option string) : FlowResult :=
  match user_input with
  | None => ShowForm "user" ∅
  | Some token =>
      let api_client := new_client token None in
      let attempt : result FlowResult :=
        (* Test the connection by getting overview *)
        overview ← get_overview session api_client None;
        (* Try timer first (has user info if running) *)
        info ← except_api
                 (timer ← get_timer session api_client;
                  has_user ← (if truthy timer
                              then u ← py_get timer "user"; mret (truthy u)
                              else mret false);
                  if (has_user : bool) then
                    user ← py_getitem timer "user";
                    user_name ← py_get_default user "name" (JStr "");
                    user ← py_getitem timer "user";
                    user_id ← py_get user "id";
                    mret (user_name, user_id)
                  else mret (JStr "", JNull))
                 (JStr "", JNull);
        let user_name := fst info in
        let user_id := snd info in
        (* If no user info from timer, try tasks endpoint *)
        user_id ← (if negb (truthy user_id) then
                     except_api
                       (tasks ← get_tasks session api_client;
                        if truthy tasks
                        then mret (JNum (Z.abs (py_hash token) mod 10 ^ 8))
                        else mret user_id)
                       user_id
                   else mret user_id);
        (* Create entry with whatever info we have *)
        if truthy user_id then
          _ ← _abort_if_unique_id_configured ("hakuna_" ++ py_str user_id);
          let title := if truthy user_name
                       then "Hakuna (" ++ py_str user_name ++ ")"
                       else "Hakuna" in
          mret (CreateEntry title {[ "api_token" := JStr token;
                                     "user_id" := user_id;
                                     "user_name" := user_name ]})
        else
          (* Fallback: use token hash as unique ID *)
          let token_hash := Z.abs (py_hash token) mod 10 ^ 8 in
          _ ← _abort_if_unique_id_configured
                ("hakuna_" ++ py_str (JNum token_hash));
          mret (CreateEntry "Hakuna" {[ "api_token" := JStr token ]}) in
      match attempt with
      | Ok flow_result => flow_result
      | Raise (HakunaAuthError _) => ShowForm "user" {[ "base" := "invalid_auth" ]}
      | Raise e =>
          if is_HakunaApiError e
          then ShowForm "user" {[ "base" := "cannot_connect" ]}
          else ShowForm "user" {[ "base" := "unknown" ]}
      end
  end.

End WithHost.

End ConfigFlow.

(** ** Concrete services used in the examples below *)

Module Scenario.

(** A reply with the given status and JSON body. *)
Definition respond (status : Z) (body : json) : Response :=
  {| resp_status := status;
     resp_headers := [];
     resp_text := Ok "";
     resp_json := Ok body |}.

(** A service described by its reply per endpoint; an endpoint that is
    not listed cannot be reached. *)
Fixpoint serve (routes : list (string * result Response)) : Session :=
  fun req =>
    match routes with
    | [] => Raise (ClientError "Cannot connect to host")
    | (endpoint, reply) :: rest =>
        if String.eqb (req_url req) (API_BASE_URL ++ endpoint) then reply
        else serve rest req
    end.

Definition server_error : Response :=
  {| resp_status := 500;
     resp_headers := [];
     resp_text := Ok "boom";
     resp_json := Ok JNull |}.

Definition client : HakunaApiClient := new_client "secret-token" None.

Definition task (id : Z) (default archived : bool) : gmap string json :=
  {[ "id" := JNum id; "default" := JBool default;
     "archived" := JBool archived ]}.

Definition running_timer : json :=
  JObj {[ "date" := JStr "2016-11-08"; "start_time" := JStr "19:00";
          "duration_in_seconds" := JNum 8138 ]}.

Definition some_overview : json :=
  JObj {[ "overtime" := JStr "470:30"; "overtime_in_seconds" := JNum 1693800 ]}.

(** Every endpoint answers; one task is the default. *)
Definition healthy : Session :=
  serve [ ("/timer", Ok (respond 200 running_timer));
          ("/overview", Ok (respond 200 some_overview));
          ("/presence", Ok (respond 200 (JArr [])));
          ("/users", Ok (respond 204 JNull));
          ("/tasks", Ok (respond 200 (JArr [JObj (task 1 true false)]))) ].

(** What a cycle against [healthy] is expected to publish. *)
Definition healthy_snapshot : Snapshot :=
  {| timer := running_timer;
     overview := some_overview;
     presence := JArr [];
     users := JArr [];
     tasks := JArr [JObj (task 1 true false)];
     default_task_id := JNum 1;
     timer_running := true |}.

(** The overview endpoint rejects the token. *)
Definition overview_unauthorized : Session :=
  serve [ ("/timer", Ok (respond 200 running_timer));
          ("/overview", Ok (respond 401 JNull)) ].

(** Presence cannot be reached, the user list is refused, the rest
    answers. *)
Definition presence_unreachable : Session :=
  serve [ ("/timer", Ok (respond 200 running_timer));
          ("/overview", Ok (respond 200 some_overview));
          ("/presence", Raise (ClientError "Connection timeout"));
          ("/users", Ok (respond 401 JNull));
          ("/tasks", Ok (respond 200 (JArr [JObj (task 1 true false)]))) ].

(** A coordinator that already published a Snapshot with one presence
    entry and one user. *)
Definition earlier_snapshot : Snapshot :=
  {| timer := JNull;
     overview := JObj {[ "overtime" := JStr "01:00" ]};
     presence := JArr [JObj {[ "has_timer_running" := JBool true ]}];
     users := JArr [JObj {[ "id" := JNum 7 ]}];
     tasks := JArr [JObj (task 9 false false)];
     default_task_id := JNum 9;
     timer_running := false |}.

Definition warm_coordinator : HakunaDataUpdateCoordinator :=
  {| api_client := client;
     data := Some earlier_snapshot;
     last_update_success := true;
     last_exception := None |}.

(** The same service as [s] for reads; every other request fails. *)
Definition read_only (s : Session) : Session :=
  fun req =>
    if String.eqb (req_method req) "GET" then s req
    else Raise (ClientError "Server disconnected").

Definition colleague : json :=
  JObj {[ "user" := JObj {[ "id" := JNum 7; "name" := JStr "Ada" ]};
          "has_timer_running" := JBool true ]}.

(** Presence lists one colleague; the timer endpoint reports no timer. *)
Definition idle_with_team : Session :=
  serve [ ("/timer", Ok (respond 404 JNull));
          ("/overview", Ok (respond 200 some_overview));
          ("/presence", Ok (respond 200 (JArr [colleague])));
          ("/users", Ok (respond 200 (JArr [])));
          ("/tasks", Ok (respond 200 (JArr [JObj (task 1 true false)]))) ].

(** A coordinator that published [healthy_snapshot]. *)
Definition running_coordinator : HakunaDataUpdateCoordinator :=
  {| api_client := client;
     data := Some healthy_snapshot;
     last_update_success := true;
     last_exception := None |}.

(** A coordinator that published the team of [idle_with_team]. *)
Definition team_coordinator : HakunaDataUpdateCoordinator :=
  async_refresh idle_with_team (new_coordinator client).

(** The overview endpoint answers with no content. *)
Definition lost_overview : Session :=
  serve [ ("/timer", Ok (respond 200 running_timer));
          ("/overview", Ok (respond 204 JNull)) ].

Definition lost_overview_coordinator : HakunaDataUpdateCoordinator :=
  async_refresh lost_overview (new_coordinator client).

(** A published timer whose project is a bare id. *)
Definition project_snapshot : Snapshot :=
  {| timer := JObj {[ "date" := JStr "2016-11-08"; "project" := JNum 42 ]};
     overview := some_overview;
     presence := JArr [];
     users := JArr [];
     tasks := JArr [];
     default_task_id := JNull;
     timer_running := true |}.

Definition project_coordinator : HakunaDataUpdateCoordinator :=
  {| api_client := client;
     data := Some project_snapshot;
     last_update_success := true;
     last_exception := None |}.

(** Only the overview can be fetched. *)
Definition only_overview : Session :=
  serve [ ("/overview", Ok (respond 200 some_overview));
          ("/timer", Ok server_error) ].

(** The timer is running; the overview endpoint answers 404. *)
Definition overview_not_found : Session :=
  serve [ ("/timer", Ok (respond 200 running_timer));
          ("/overview", Ok (respond 404 JNull)) ].

End Scenario.

(** ** Proof automation *)

(** Decide the status tests of [_request] from (in)equalities on the
    status that are in the context. *)
Ltac status_tests :=
  repeat match goal with
    | |- context [Z.eqb ?a ?b] =>
        first [ replace (Z.eqb a b) with true by (symmetry; apply Z.eqb_eq; lia)
              | replace (Z.eqb a b) with false by (symmetry; apply Z.eqb_neq; lia) ]
    | |- context [Z.leb ?a ?b] =>
        first [ replace (Z.leb a b) with true by (symmetry; apply Z.leb_le; lia)
              | replace (Z.leb a b) with false by (symmetry; apply Z.leb_gt; lia) ]
    end.

Ltac request_on H :=
  unfold _request; rewrite H; cbn [mbind result_bind]; status_tests.

(** ** Sanity checks on concrete values *)

Example truthy_empty_dict : truthy (JObj ∅) = false.
Proof. reflexivity. Qed.

Example truthy_dict : truthy (JObj {[ "date" := JNull ]}) = true.
Proof. vm_compute. reflexivity. Qed.

Example str_int_404 : str_int 404 = "404".
Proof. reflexivity. Qed.

Example isoformat_example :
  isoformat {| year := 2016; month := 11; day := 8 |} = "2016-11-08".
Proof. reflexivity. Qed.

(** ** Reasoning about [result] *)

Lemma bind_Ok_inv {A B} (m : result A) (k : A -> result B) (b : B) :
  m ≫= k = Ok b -> exists a, m = Ok a /\ k a = Ok b.
Proof. destruct m as [a|e]; simpl; [eauto | discriminate]. Qed.

(** ** Default task selection *)

Lemma find_default_task_dicts (ts : list (gmap string json)) :
  find_default_task (JObj <$> ts) =
  Ok (match List.find (fun t => flag_default t && negb (flag_archived t)) ts with
      | Some t => dict_get t "id"
      | None => JNull
      end).
Proof.
  induction ts as [|t ts IH]; [reflexivity|].
  cbn [fmap list_fmap find_default_task List.find py_get].
  unfold flag_default, flag_archived in *; simpl.
  destruct (truthy (dict_get t "default")); simpl;
    [destruct (truthy (dict_get t "archived")); simpl|]; auto.
Qed.

Lemma find_active_task_dicts (ts : list (gmap string json)) :
  find_active_task (JObj <$> ts) =
  Ok (match List.find (fun t => negb (flag_archived t)) ts with
      | Some t => dict_get t "id"
      | None => JNull
      end).
Proof.
  induction ts as [|t ts IH]; [reflexivity|].
  cbn [fmap list_fmap find_active_task List.find py_get].
  unfold flag_archived in *; simpl.
  destruct (truthy (dict_get t "archived")); simpl; auto.
Qed.

(** What the block computes on any list of task dictionaries: the id
    read from the first default, non-archived task, unless that read
    gives [None], in which case the fallback loop decides. *)
Lemma select_default_task_dicts (ts : list (gmap string json)) :
  select_default_task (JArr (JObj <$> ts)) =
  Ok (let fallback :=
        match List.find (fun t => negb (flag_archived t)) ts with
        | Some t => dict_get t "id"
        | None => JNull
        end in
      match List.find (fun t => flag_default t && negb (flag_archived t)) ts with
      | Some t => if is_none (dict_get t "id") then fallback else dict_get t "id"
      | None => fallback
      end).
Proof.
  unfold select_default_task. cbn [py_iter]. simpl mbind at 1.
  rewrite find_default_task_dicts. simpl mbind at 1.
  destruct ts as [|t0 ts0]; [reflexivity|].
  change (truthy (JArr (JObj <$> t0 :: ts0))) with true.
  rewrite andb_true_r. generalize (t0 :: ts0) as ts; intros ts.
  destruct (List.find (fun t => flag_default t && negb (flag_archived t)) ts) as [t|].
  - destruct (is_none (dict_get t "id")); [|reflexivity].
    simpl mbind. apply find_active_task_dicts.
  - simpl is_none. cbv iota. simpl mbind. apply find_active_task_dicts.
Qed.

(** C2: on a list of tasks, each carrying an id, the derived
    [default_task_id] is the id of the first task that is default and not
    archived; failing that, the id of the first task that is not
    archived; failing that, [None]. *)
Theorem default_task_policy (ts : list (gmap string json)) :
  Forall (fun t => dict_get t "id" <> JNull) ts ->
  select_default_task (JArr (JObj <$> ts)) =
  Ok (match List.find (fun t => flag_default t && negb (flag_archived t)) ts with
      | Some t => dict_get t "id"
      | None =>
          match List.find (fun t => negb (flag_archived t)) ts with
          | Some t => dict_get t "id"
          | None => JNull
          end
      end).
Proof.
  intros Hid. rewrite select_default_task_dicts. cbv zeta.
  destruct (List.find _ ts) as [t|] eqn:Hfind; [|reflexivity].
  apply List.find_some in Hfind as [Hin _].
  rewrite List.Forall_forall in Hid. specialize (Hid t Hin).
  destruct (dict_get t "id"); simpl; congruence.
Qed.

Lemma default_task_policy_witness :
  select_default_task (JArr (JObj <$> [Scenario.task 1 true false])) =
  Ok (JNum 1).
Proof.
  rewrite (default_task_policy [Scenario.task 1 true false]).
  - vm_compute. reflexivity.
  - repeat constructor. vm_compute. discriminate.
Defined.

Example default_task_none_when_no_tasks :
  select_default_task (JArr []) = Ok JNull.
Proof. reflexivity. Qed.

Example default_task_none_when_all_archived :
  select_default_task
    (JArr (JObj <$> [Scenario.task 4 true true; Scenario.task 5 false true]))
  = Ok JNull.
Proof. vm_compute. reflexivity. Qed.

(** C3, as stated, fails: on the tasks 1 (plain), 2 (default, archived),
    3 (plain) the derived id is not 3. *)
Lemma fallback_example_is_not_3 :
  select_default_task
    (JArr (JObj <$> [Scenario.task 1 false false; Scenario.task 2 true true;
                     Scenario.task 3 false false]))
  <> Ok (JNum 3).
Proof. vm_compute. discriminate. Qed.

(** C3, amended: on the tasks 1 (plain), 2 (default, archived),
    3 (plain) the archived default task 2 is skipped and the fallback
    picks the first non-archived task, whose id is 1. *)
Theorem fallback_example_is_1 :
  select_default_task
    (JArr (JObj <$> [Scenario.task 1 false false; Scenario.task 2 true true;
                     Scenario.task 3 false false]))
  = Ok (JNum 1).
Proof. vm_compute. reflexivity. Qed.

(** ** Response classification in [_request] *)

Lemma _request_transport_error session self method endpoint params json_data msg :
  session (build_request self method endpoint params json_data)
    = Raise (ClientError msg) ->
  _request session self method endpoint params json_data
    = Raise (HakunaApiError ("Connection error: " ++ msg)).
Proof. intros H. unfold _request. now rewrite H. Qed.

Lemma _request_401 session self method endpoint params json_data r :
  session (build_request self method endpoint params json_data) = Ok r ->
  resp_status r = 401 ->
  _request session self method endpoint params json_data
    = Raise (HakunaAuthError "Invalid API token").
Proof. intros H Hs. request_on H. reflexivity. Qed.

Lemma _request_404 session self method endpoint params json_data r :
  session (build_request self method endpoint params json_data) = Ok r ->
  resp_status r = 404 ->
  _request session self method endpoint params json_data = Ok JNull.
Proof. intros H Hs. request_on H. reflexivity. Qed.

Lemma _request_204 session self method endpoint params json_data r :
  session (build_request self method endpoint params json_data) = Ok r ->
  resp_status r = 204 ->
  _request session self method endpoint params json_data = Ok JNull.
Proof. intros H Hs. request_on H. reflexivity. Qed.

Lemma _request_body session self method endpoint params json_data r body :
  session (build_request self method endpoint params json_data) = Ok r ->
  resp_status r < 400 -> resp_status r <> 204 ->
  resp_json r = Ok body ->
  _request session self method endpoint params json_data = Ok body.
Proof. intros H Hlt Hne Hb. request_on H. now rewrite Hb. Qed.

(** The rule "any other status >= 400 raises the generic error" does
    not hold of [_request]: a 404 from an endpoint other than the
    timer-status endpoint is a status >= 400 that is neither 401 nor 429,
    yet no [HakunaApiError] is raised for it. *)
Lemma not_found_elsewhere_raises_nothing :
  ~ (forall (session : Session) (self : HakunaApiClient)
            (method endpoint : string)
            (params json_data : option (gmap string json)) (r : Response),
        session (build_request self method endpoint params json_data) = Ok r ->
        400 <= resp_status r ->
        resp_status r <> 401 -> resp_status r <> 429 ->
        ~ (resp_status r = 404 /\ endpoint = "/timer") ->
        exists msg,
          _request session self method endpoint params json_data
            = Raise (HakunaApiError msg)).
Proof.
  intros claim.
  destruct (claim (fun _ => Ok (Scenario.respond 404 JNull)) Scenario.client
                  "GET" "/overview" None None (Scenario.respond 404 JNull))
    as [msg Hmsg]; simpl; try lia; try reflexivity.
  - intros [_ Habs]. discriminate Habs.
  - discriminate Hmsg.
Qed.

(** C4 at the reply "404 to GET /overview": no error is raised.
    [_request] returns [None] for it, where "any other status >= 400"
    is to raise the generic error; [get_overview] hands the [None] on,
    the cycle publishes it as the overview, the overtime sensor then
    raises [AttributeError], and the setup dialogue, whose connection
    test is this fetch, creates an entry for a service that answers 404
    to everything. *)
Theorem overview_not_found_raises_nothing :
  let session := Scenario.overview_not_found in
  let after := async_refresh session (new_coordinator Scenario.client) in
  _request session Scenario.client "GET" "/overview" None None = Ok JNull /\
  get_overview session Scenario.client None = Ok JNull /\
  overview <$> data after = Some JNull /\
  (forall py_str,
      Sensor.native_value py_str (fun _ => @None unit) after "overtime"
      = Raise (OtherError "AttributeError: object has no attribute 'get'")) /\
  (forall py_str py_hash,
      ConfigFlow.async_step_user (fun _ => Ok (Scenario.respond 404 JNull))
        py_str py_hash (fun _ => false) (Some "secret-token")
      = ConfigFlow.CreateEntry "Hakuna"
          {[ "api_token" := JStr "secret-token" ]}).
Proof.
  cbv zeta. repeat split; intros; vm_compute; reflexivity.
Qed.

(** How [_request] classifies a reply, by its status alone.  401
    raises the authentication error; 429 raises the rate-limit error,
    whose message carries the Retry-After header when there is one; 404
    yields [None] on every endpoint, the timer-status endpoint included;
    any other status >= 400 raises the generic error with the status and
    the body text; 204 yields [None]; any other status below 400 (every
    other 2xx in particular) yields the parsed body; a transport failure
    raises the generic error around its cause. *)
Theorem request_classification (session : Session) (self : HakunaApiClient)
    (method endpoint : string) (params json_data : option (gmap string json)) :
  let outcome := _request session self method endpoint params json_data in
  (forall r,
      session (build_request self method endpoint params json_data) = Ok r ->
      (resp_status r = 401 ->
       outcome = Raise (HakunaAuthError "Invalid API token")) /\
      (resp_status r = 429 ->
       outcome = Raise (HakunaRateLimitError
                          ("Rate limit exceeded. Retry after "
                             ++ headers_get (resp_headers r) "Retry-After" "unknown"
                             ++ " seconds"))) /\
      (resp_status r = 404 -> outcome = Ok JNull) /\
      (400 <= resp_status r ->
       resp_status r <> 401 -> resp_status r <> 429 -> resp_status r <> 404 ->
       forall text, resp_text r = Ok text ->
       outcome = Raise (HakunaApiError
                          ("API error " ++ str_int (resp_status r) ++ ": " ++ text))) /\
      (resp_status r = 204 -> outcome = Ok JNull) /\
      (resp_status r < 400 -> resp_status r <> 204 ->
       forall body, resp_json r = Ok body -> outcome = Ok body)) /\
  (forall msg,
      session (build_request self method endpoint params json_data)
        = Raise (ClientError msg) ->
      outcome = Raise (HakunaApiError ("Connection error: " ++ msg))).
Proof.
  cbv zeta. split.
  - intros r H. repeat split.
    + now apply _request_401.
    + intros Hs. request_on H. reflexivity.
    + now apply _request_404.
    + intros Hge H1 H2 H3 text Ht. request_on H. now rewrite Ht.
    + now apply _request_204.
    + intros Hlt Hne body Hb. eapply _request_body; eauto.
  - intros msg H. now apply _request_transport_error.
Qed.

Lemma request_classification_witness :
  _request (Scenario.serve [("/users", Ok Scenario.server_error)])
           Scenario.client "GET" "/users" None None
  = Raise (HakunaApiError "API error 500: boom").
Proof.
  pose proof (request_classification
                (Scenario.serve [("/users", Ok Scenario.server_error)])
                Scenario.client "GET" "/users" None None) as [W _].
  destruct (W Scenario.server_error eq_refl) as (_ & _ & _ & W500 & _).
  apply (W500 ltac:(simpl; lia) ltac:(simpl; lia) ltac:(simpl; lia)
              ltac:(simpl; lia) "boom" eq_refl).
Defined.

Example retry_after_found_in_any_case :
  _request
    (Scenario.serve [("/users", Ok {| resp_status := 429;
                                      resp_headers := [("retry-after", "30")];
                                      resp_text := Ok "";
                                      resp_json := Ok JNull |})])
    Scenario.client "GET" "/users" None None
  = Raise (HakunaRateLimitError "Rate limit exceeded. Retry after 30 seconds").
Proof. vm_compute. reflexivity. Qed.

(** ** Time entries: the omitted end date *)

(** C7: for every start date [D] (a date or a string) and every user
    id, [get_time_entries] with no end date builds the same query and
    returns the same outcome as with the end date [D]. *)
Theorem time_entries_end_defaults_to_start (session : Session)
    (self : HakunaApiClient) (D : date_or_str) (user_id : option Z) :
  time_entries_params D None user_id
    = time_entries_params D (Some D) user_id /\
  get_time_entries session self D None user_id
    = get_time_entries session self D (Some D) user_id.
Proof.
  assert (Hq : time_entries_params D None user_id
               = time_entries_params D (Some D) user_id)
    by (destruct D; reflexivity).
  split; [exact Hq|].
  unfold get_time_entries. now rewrite Hq.
Qed.

Example time_entries_query_example :
  time_entries_params (ADate {| year := 2024; month := 3; day := 9 |}) None None
  = {[ "start_date" := JStr "2024-03-09"; "end_date" := JStr "2024-03-09" ]}.
Proof. reflexivity. Qed.

(** ** List-returning operations *)

Lemma or_empty_list_falsy (v : json) :
  truthy v = false -> or_empty_list v = JArr [].
Proof. unfold or_empty_list. now intros ->. Qed.

Lemma or_empty_list_not_none (v : json) : or_empty_list v <> JNull.
Proof.
  unfold or_empty_list. destruct (truthy v) eqn:Hv; [|discriminate].
  intros ->. discriminate Hv.
Qed.

Lemma listing_not_none (m : result json) :
  (m ≫= fun result => mret (or_empty_list result)) <> Ok JNull.
Proof.
  destruct m as [v|e]; simpl; [|discriminate].
  intros H. injection H. apply or_empty_list_not_none.
Qed.

Lemma _request_no_content session self method endpoint params json_data r :
  session (build_request self method endpoint params json_data) = Ok r ->
  reports_no_content r ->
  exists v, _request session self method endpoint params json_data = Ok v
            /\ truthy v = false.
Proof.
  intros H [Hs|[Hs [Hb|Hb]]].
  - exists JNull. split; [now apply (_request_204 _ _ _ _ _ _ r) | reflexivity].
  - destruct (Z.eq_dec (resp_status r) 204) as [E|E].
    + exists JNull. split; [now apply (_request_204 _ _ _ _ _ _ r) | reflexivity].
    + exists JNull. split; [|reflexivity]. eapply _request_body; eauto; lia.
  - destruct (Z.eq_dec (resp_status r) 204) as [E|E].
    + exists JNull. split; [now apply (_request_204 _ _ _ _ _ _ r) | reflexivity].
    + exists (JArr []). split; [|reflexivity]. eapply _request_body; eauto; lia.
Qed.

Lemma listing_no_content session self method endpoint params json_data r :
  session (build_request self method endpoint params json_data) = Ok r ->
  reports_no_content r ->
  (_request session self method endpoint params json_data
     ≫= fun result => mret (or_empty_list result)) = Ok (JArr []).
Proof.
  intros H Hr. destruct (_request_no_content _ _ _ _ _ _ _ H Hr) as (v & -> & Hv).
  simpl. now rewrite or_empty_list_falsy.
Qed.

(** C8: each of the seven list-returning operations returns the empty
    list when the service answers its request with a reply that reports
    no content (a 204, or a success status with an empty body), and none
    of them ever returns [None]. *)
Theorem list_operations_never_absent (session : Session)
    (self : HakunaApiClient) :
  (forall r, reports_no_content r ->
     (forall s e u,
         session (build_request self "GET" "/time_entries"
                    (Some (time_entries_params s e u)) None) = Ok r ->
         get_time_entries session self s e u = Ok (JArr [])) /\
     (forall now y u,
         session (build_request self "GET" "/absences"
                    (Some (absences_params now y u)) None) = Ok r ->
         get_absences session now self y u = Ok (JArr [])) /\
     (session (build_request self "GET" "/users" None None) = Ok r ->
      get_users session self = Ok (JArr [])) /\
     (session (build_request self "GET" "/presence" None None) = Ok r ->
      get_presence session self = Ok (JArr [])) /\
     (session (build_request self "GET" "/projects" None None) = Ok r ->
      get_projects session self = Ok (JArr [])) /\
     (session (build_request self "GET" "/tasks" None None) = Ok r ->
      get_tasks session self = Ok (JArr [])) /\
     (session (build_request self "GET" "/absence_types" None None) = Ok r ->
      get_absence_types session self = Ok (JArr []))) /\
  ((forall s e u, get_time_entries session self s e u <> Ok JNull) /\
   (forall now y u, get_absences session now self y u <> Ok JNull) /\
   get_users session self <> Ok JNull /\
   get_presence session self <> Ok JNull /\
   get_projects session self <> Ok JNull /\
   get_tasks session self <> Ok JNull /\
   get_absence_types session self <> Ok JNull).
Proof.
  split.
  - intros r Hr. repeat split; intros; eapply listing_no_content; eauto.
  - repeat split; intros; apply listing_not_none.
Qed.

Lemma list_operations_never_absent_witness :
  get_users Scenario.healthy Scenario.client = Ok (JArr []).
Proof.
  pose proof (list_operations_never_absent Scenario.healthy Scenario.client)
    as [W _].
  destruct (W (Scenario.respond 204 JNull) (or_introl eq_refl))
    as (_ & _ & Wusers & _).
  apply Wusers. reflexivity.
Defined.

(** ** Timer status *)

Lemma get_timer_404 session self r :
  session (build_request self "GET" "/timer" None None) = Ok r ->
  resp_status r = 404 ->
  get_timer session self = Ok JNull.
Proof.
  intros H Hs. unfold get_timer. now rewrite (_request_404 _ _ _ _ _ _ _ H Hs).
Qed.

Lemma get_timer_date_null session self r d :
  session (build_request self "GET" "/timer" None None) = Ok r ->
  200 <= resp_status r < 300 ->
  resp_json r = Ok (JObj d) -> d !! "date" = Some JNull ->
  get_timer session self = Ok JNull.
Proof.
  intros H Hs Hb Hd. unfold get_timer.
  destruct (Z.eq_dec (resp_status r) 204) as [E|E].
  - now rewrite (_request_204 _ _ _ _ _ _ _ H E).
  - rewrite (_request_body _ _ _ _ _ _ _ _ H ltac:(lia) E Hb).
    cbn [mbind result_bind].
    assert (Ht : truthy (JObj d) = true).
    { simpl. destruct (size d) eqn:Hsz; [|reflexivity].
      apply map_size_empty_iff in Hsz. subst d.
      rewrite lookup_empty in Hd. discriminate. }
    rewrite Ht. simpl. unfold dict_get. now rewrite Hd.
Qed.

(** X8: a non-empty object is returned as a timer only with a non-null
    date. *)
Lemma get_timer_object_present session self d :
  get_timer session self = Ok (JObj d) -> d <> ∅ ->
  dict_get d "date" <> JNull.
Proof.
  unfold get_timer. intros H Hne.
  apply bind_Ok_inv in H as (body & _ & H).
  destruct (truthy body) eqn:Ht.
  - destruct body; simpl in H; try discriminate.
    destruct (is_none (dict_get d0 "date")) eqn:Hdate; simpl in H;
      [discriminate|].
    injection H as ->. intros E. now rewrite E in Hdate.
  - simpl in H. injection H as ->. simpl in Ht.
    apply negb_false_iff, Nat.eqb_eq, map_size_empty_iff in Ht. contradiction.
Qed.

(** C9 at the reply "200 with body {}": [get_timer] does not return
    [None] but the empty object, although the body has no date field, and
    the refresh cycle then publishes [timer_running = True]. *)
Theorem get_timer_empty_object_is_reported :
  let session := Scenario.serve
                   [("/timer", Ok (Scenario.respond 200 (JObj ∅)));
                    ("/overview", Ok (Scenario.respond 200 Scenario.some_overview))] in
  dict_get ∅ "date" = JNull /\
  get_timer session Scenario.client = Ok (JObj ∅) /\
  timer_running <$>
    data (async_refresh session (new_coordinator Scenario.client)) = Some true.
Proof. vm_compute. repeat split. Qed.

(** ** The refresh cycle *)

Lemma update_data_Ok_inv session self snapshot :
  _async_update_data session self = Ok snapshot ->
  exists t o p u tk d,
    get_timer session (api_client self) = Ok t /\
    get_overview session (api_client self) None = Ok o /\
    except_api (get_presence session (api_client self)) (JArr []) = Ok p /\
    except_api (get_users session (api_client self)) (JArr []) = Ok u /\
    except_api (get_tasks session (api_client self)) (JArr []) = Ok tk /\
    select_default_task tk = Ok d /\
    snapshot = {| timer := t; overview := o; presence := p; users := u;
                  tasks := tk; default_task_id := d;
                  timer_running := negb (is_none t) |}.
Proof.
  unfold _async_update_data. intros H.
  match type of H with
  | match ?a with _ => _ end = _ => destruct a as [s|e] eqn:Ha
  end.
  - injection H as ->.
    apply bind_Ok_inv in Ha as (t & Ht & Ha).
    apply bind_Ok_inv in Ha as (o & Ho & Ha).
    apply bind_Ok_inv in Ha as (p & Hp & Ha).
    apply bind_Ok_inv in Ha as (u & Hu & Ha).
    apply bind_Ok_inv in Ha as (tk & Htk & Ha).
    apply bind_Ok_inv in Ha as (d & Hd & Ha).
    injection Ha as <-. exists t, o, p, u, tk, d. auto 10.
  - destruct e; simpl in H; discriminate.
Qed.

Lemma update_data_assembles session self t o p u tk d :
  get_timer session (api_client self) = Ok t ->
  get_overview session (api_client self) None = Ok o ->
  except_api (get_presence session (api_client self)) (JArr []) = Ok p ->
  except_api (get_users session (api_client self)) (JArr []) = Ok u ->
  except_api (get_tasks session (api_client self)) (JArr []) = Ok tk ->
  select_default_task tk = Ok d ->
  _async_update_data session self =
  Ok {| timer := t; overview := o; presence := p; users := u;
        tasks := tk; default_task_id := d;
        timer_running := negb (is_none t) |}.
Proof.
  intros Ht Ho Hp Hu Htk Hd. unfold _async_update_data.
  rewrite Ht, Ho, Hp, Hu, Htk. cbn [mbind result_bind]. rewrite Hd.
  reflexivity.
Qed.

(** The failure a cycle reports for a Gateway error [e]. *)
Lemma update_data_critical_failure session self e :
  is_HakunaApiError e = true ->
  get_timer session (api_client self) = Raise e \/
  (exists t, get_timer session (api_client self) = Ok t /\
             get_overview session (api_client self) None = Raise e) ->
  _async_update_data session self =
  Raise (UpdateFailed match e with
                      | HakunaAuthError msg => "Authentication failed: " ++ msg
                      | _ => "Error fetching data: " ++ str_exn e
                      end).
Proof.
  intros He [Ht|(t & Ht & Ho)]; unfold _async_update_data; rewrite Ht;
    [|rewrite Ho]; cbn [mbind result_bind];
    destruct e; simpl in He; try discriminate; reflexivity.
Qed.

Lemma async_refresh_failure session self e :
  _async_update_data session self = Raise e ->
  async_refresh session self =
  {| api_client := api_client self; data := data self;
     last_update_success := false; last_exception := Some e |}.
Proof. unfold async_refresh. now intros ->. Qed.

Lemma async_refresh_success session self snapshot :
  _async_update_data session self = Ok snapshot ->
  async_refresh session self =
  {| api_client := api_client self; data := Some snapshot;
     last_update_success := true; last_exception := None |}.
Proof. unfold async_refresh. now intros ->. Qed.

(** C1: a Snapshot returned by a refresh cycle holds in [timer] what
    [get_timer] returned, and its [timer_running] is computed from that
    value alone: it is [timer is not None]. *)
Theorem timer_running_is_derived (session : Session)
    (self : HakunaDataUpdateCoordinator) (snapshot : Snapshot) :
  _async_update_data session self = Ok snapshot ->
  get_timer session (api_client self) = Ok (timer snapshot) /\
  timer_running snapshot = negb (is_none (timer snapshot)).
Proof.
  intros H. apply update_data_Ok_inv in H
    as (t & o & p & u & tk & d & Ht & _ & _ & _ & _ & _ & ->).
  simpl. auto.
Qed.

Lemma timer_running_is_derived_witness :
  get_timer Scenario.healthy Scenario.client
    = Ok (timer Scenario.healthy_snapshot) /\
  timer_running Scenario.healthy_snapshot
    = negb (is_none (timer Scenario.healthy_snapshot)).
Proof.
  apply (timer_running_is_derived Scenario.healthy
           (new_coordinator Scenario.client) Scenario.healthy_snapshot).
  vm_compute. reflexivity.
Defined.

(** The [default_task_id] of a returned Snapshot is the selection made
    on the tasks of that same Snapshot. *)
Lemma default_task_id_is_selected (session : Session)
    (self : HakunaDataUpdateCoordinator) (snapshot : Snapshot) :
  _async_update_data session self = Ok snapshot ->
  select_default_task (tasks snapshot) = Ok (default_task_id snapshot).
Proof.
  intros H. apply update_data_Ok_inv in H
    as (t & o & p & u & tk & d & _ & _ & _ & _ & _ & Hd & ->).
  exact Hd.
Qed.

(** The invariant holds of whatever is published after any number of
    cycles, failed ones included. *)
Lemma published_timer_running (cycles : list Session) (api : HakunaApiClient)
    (snapshot : Snapshot) :
  data (run_cycles cycles (new_coordinator api)) = Some snapshot ->
  timer_running snapshot = negb (is_none (timer snapshot)).
Proof.
  unfold run_cycles.
  assert (Hinit : forall s, data (new_coordinator api) = Some s ->
                            timer_running s = negb (is_none (timer s)))
    by (intros s Hs; discriminate Hs).
  revert snapshot. generalize dependent (new_coordinator api).
  induction cycles as [|session cycles IH]; intros c Hc snapshot; simpl.
  - apply Hc.
  - apply IH. intros s. unfold async_refresh.
    destruct (_async_update_data session c) as [s'|e] eqn:E; simpl.
    + intros [= <-].
      apply update_data_Ok_inv in E
        as (t & o & p & u & tk & d & _ & _ & _ & _ & _ & _ & ->).
      reflexivity.
    + apply Hc.
Qed.

(** C5: when the timer fetch, or the overview fetch after it, fails
    with a Gateway error, the cycle returns no Snapshot and raises the
    refresh failure, whose message starts with "Authentication failed"
    for an authentication error and with "Error fetching data" for
    every other Gateway error; the published Snapshot stays what it was
    and the failure is recorded.  In particular a 401 from the overview
    endpoint gives the authentication failure.  The two kinds of
    message never coincide. *)
Theorem critical_failure_aborts_cycle (session : Session)
    (self : HakunaDataUpdateCoordinator) :
  (forall e,
      is_HakunaApiError e = true ->
      get_timer session (api_client self) = Raise e \/
      (exists t, get_timer session (api_client self) = Ok t /\
                 get_overview session (api_client self) None = Raise e) ->
      let failure :=
        UpdateFailed match e with
                     | HakunaAuthError msg => "Authentication failed: " ++ msg
                     | _ => "Error fetching data: " ++ str_exn e
                     end in
      _async_update_data session self = Raise failure /\
      data (async_refresh session self) = data self /\
      last_update_success (async_refresh session self) = false /\
      last_exception (async_refresh session self) = Some failure) /\
  (forall t r,
      get_timer session (api_client self) = Ok t ->
      session (build_request (api_client self) "GET" "/overview" None None)
        = Ok r ->
      resp_status r = 401 ->
      _async_update_data session self
        = Raise (UpdateFailed "Authentication failed: Invalid API token") /\
      data (async_refresh session self) = data self) /\
  (forall m1 m2 : string,
      "Authentication failed: " ++ m1 <> "Error fetching data: " ++ m2).
Proof.
  split; [|split].
  - intros e He Hfail. cbv zeta.
    pose proof (update_data_critical_failure _ _ _ He Hfail) as H.
    rewrite (async_refresh_failure _ _ _ H). auto.
  - intros t r Ht Hr Hs.
    assert (Ho : get_overview session (api_client self) None
                 = Raise (HakunaAuthError "Invalid API token"))
      by (unfold get_overview; simpl; now apply (_request_401 _ _ _ _ _ _ r)).
    pose proof (update_data_critical_failure session self
                  (HakunaAuthError "Invalid API token") eq_refl
                  (or_intror (ex_intro _ t (conj Ht Ho)))) as H.
    rewrite (async_refresh_failure _ _ _ H). auto.
  - intros m1 m2 H. discriminate H.
Qed.

Lemma critical_failure_aborts_cycle_witness :
  _async_update_data Scenario.overview_unauthorized Scenario.warm_coordinator
    = Raise (UpdateFailed "Authentication failed: Invalid API token") /\
  data (async_refresh Scenario.overview_unauthorized Scenario.warm_coordinator)
    = Some Scenario.earlier_snapshot.
Proof.
  apply (proj1 (proj2 (critical_failure_aborts_cycle
                         Scenario.overview_unauthorized
                         Scenario.warm_coordinator))
           Scenario.running_timer (Scenario.respond 401 JNull)).
  - vm_compute. reflexivity.
  - reflexivity.
  - reflexivity.
Defined.

Example rate_limited_timer_is_generic_failure :
  _async_update_data
    (Scenario.serve [("/timer", Ok (Scenario.respond 429 JNull))])
    Scenario.warm_coordinator
  = Raise (UpdateFailed
             "Error fetching data: Rate limit exceeded. Retry after unknown seconds").
Proof. vm_compute. reflexivity. Qed.

Lemma except_api_empty (m : result json) :
  (forall e, m = Raise e -> is_HakunaApiError e = true) ->
  exists v, except_api m (JArr []) = Ok v /\
            (forall e, m = Raise e -> v = JArr []) /\
            (forall w, m = Ok w -> v = w).
Proof.
  destruct m as [w|e]; intros He.
  - exists w. split; [reflexivity|].
    split; [discriminate | now intros ? [= ->]].
  - exists (JArr []). simpl. rewrite (He e eq_refl).
    split; [reflexivity|]. split; [reflexivity | discriminate].
Qed.

(** C6: in a cycle whose timer and overview fetches succeed, and whose
    presence, users and tasks fetches each either succeed or fail with
    a Gateway error, the cycle completes with a Snapshot, whatever
    Snapshot the coordinator held before; it carries the fetched timer
    and overview; each best-effort field holds the empty list when its
    fetch failed, and the fetched value otherwise. *)
Theorem best_effort_failures_default_to_empty (session : Session)
    (self : HakunaDataUpdateCoordinator) (t o : json) :
  let api := api_client self in
  get_timer session api = Ok t ->
  get_overview session api None = Ok o ->
  (forall e, get_presence session api = Raise e -> is_HakunaApiError e = true) ->
  (forall e, get_users session api = Raise e -> is_HakunaApiError e = true) ->
  (forall e, get_tasks session api = Raise e -> is_HakunaApiError e = true) ->
  (forall v, get_tasks session api = Ok v ->
             exists ts : list (gmap string json), v = JArr (JObj <$> ts)) ->
  exists snapshot,
    _async_update_data session self = Ok snapshot /\
    timer snapshot = t /\ overview snapshot = o /\
    (forall e, get_presence session api = Raise e ->
               presence snapshot = JArr []) /\
    (forall e, get_users session api = Raise e -> users snapshot = JArr []) /\
    (forall e, get_tasks session api = Raise e -> tasks snapshot = JArr []) /\
    (forall v, get_presence session api = Ok v -> presence snapshot = v) /\
    (forall v, get_users session api = Ok v -> users snapshot = v) /\
    (forall v, get_tasks session api = Ok v -> tasks snapshot = v).
Proof.
  cbv zeta. intros Ht Ho Hp Hu Htk Hshape.
  set (api := api_client self) in *.
  destruct (except_api_empty _ Hp) as (p & Ep & Pfail & Pok).
  destruct (except_api_empty _ Hu) as (u & Eu & Ufail & Uok).
  destruct (except_api_empty _ Htk) as (tk & Etk & Tfail & Tok).
  assert (Hts : exists ts : list (gmap string json), tk = JArr (JObj <$> ts)).
  { destruct (get_tasks session api) as [w|e] eqn:Eg.
    - rewrite <- (Tok w eq_refl) in *. now apply Hshape.
    - exists []. now apply (Tfail e). }
  destruct Hts as (ts & ->).
  pose proof (update_data_assembles session self _ _ _ _ _ _
                Ht Ho Ep Eu Etk (select_default_task_dicts ts)) as H.
  eexists. split; [exact H|]. simpl. auto 12.
Qed.

Lemma best_effort_failures_default_to_empty_witness :
  exists snapshot,
    _async_update_data Scenario.presence_unreachable Scenario.warm_coordinator
      = Ok snapshot /\
    timer snapshot = Scenario.running_timer /\
    overview snapshot = Scenario.some_overview /\
    presence snapshot = JArr [] /\ users snapshot = JArr [].
Proof.
  destruct (best_effort_failures_default_to_empty
              Scenario.presence_unreachable Scenario.warm_coordinator
              Scenario.running_timer Scenario.some_overview)
    as (snapshot & Hrun & Ht & Ho & Hp & Hu & _).
  - vm_compute. reflexivity.
  - vm_compute. reflexivity.
  - intros e H. vm_compute in H. injection H as <-. reflexivity.
  - intros e H. vm_compute in H. injection H as <-. reflexivity.
  - intros e H. vm_compute in H. discriminate H.
  - intros v H. exists [Scenario.task 1 true false].
    vm_compute in H. injection H as <-. vm_compute. reflexivity.
  - exists snapshot. repeat split; auto.
    + apply (Hp (HakunaApiError "Connection error: Connection timeout")).
      vm_compute. reflexivity.
    + apply (Hu (HakunaAuthError "Invalid API token")).
      vm_compute. reflexivity.
Defined.

(** The same cycle seen from the consumers: what they read afterwards
    has empty presence and users, not the entries published before. *)
Example presence_not_carried_forward :
  let before := Scenario.warm_coordinator in
  let after := async_refresh Scenario.presence_unreachable before in
  presence <$> data before
    = Some (JArr [JObj {[ "has_timer_running" := JBool true ]}]) /\
  presence <$> data after = Some (JArr []) /\
  users <$> data after = Some (JArr []) /\
  timer <$> data after = Some Scenario.running_timer /\
  default_task_id <$> data after = Some (JNum 1).
Proof. vm_compute. repeat split. Qed.

(** ** Action buttons *)

(** C10: with no Snapshot published every button is unavailable,
    whatever its key; with a Snapshot, the start button is available
    exactly when [timer_running] is false, the stop and cancel buttons
    exactly when it is true, and the refresh button always. *)
Theorem button_availability (coordinator : HakunaDataUpdateCoordinator) :
  match data coordinator with
  | None => forall key, available coordinator key = false
  | Some snapshot =>
      available coordinator "start_timer" = negb (timer_running snapshot) /\
      available coordinator "stop_timer" = timer_running snapshot /\
      available coordinator "cancel_timer" = timer_running snapshot /\
      available coordinator "refresh" = true
  end.
Proof.
  unfold available. destruct (data coordinator) as [snapshot|]; auto.
Qed.

Example buttons_before_first_refresh :
  (fun key => available (new_coordinator Scenario.client) key) <$> BUTTON_KEYS
  = [false; false; false; false].
Proof. reflexivity. Qed.

Example buttons_while_timer_runs :
  (fun key => available
                (async_refresh Scenario.healthy (new_coordinator Scenario.client))
                key) <$> BUTTON_KEYS
  = [false; true; true; true].
Proof. vm_compute. reflexivity. Qed.

(** ** Further properties of the gateway *)

Lemma except_client_error_converts {A} (m : result A) (msg : string) :
  except_client_error m <> Raise (ClientError msg).
Proof. destruct m as [a|[]]; simpl; discriminate. Qed.

Lemma _request_no_client_error session self method endpoint params json_data msg :
  _request session self method endpoint params json_data
    <> Raise (ClientError msg).
Proof. apply except_client_error_converts. Qed.

Lemma bind_no_client_error {A B} (m : result A) (k : A -> result B) msg :
  m <> Raise (ClientError msg) ->
  (forall a, k a <> Raise (ClientError msg)) ->
  m ≫= k <> Raise (ClientError msg).
Proof.
  intros Hm Hk. destruct m as [a|e]; [apply Hk|].
  intros H. apply Hm. injection H as ->. reflexivity.
Qed.

Lemma get_timer_no_client_error session self msg :
  get_timer session self <> Raise (ClientError msg).
Proof.
  unfold get_timer. apply bind_no_client_error.
  - apply _request_no_client_error.
  - intros v. destruct (truthy v); simpl; [|discriminate].
    destruct v; simpl; try discriminate.
    destruct (is_none _); discriminate.
Qed.

(** X1: no operation of the gateway lets a transport exception of the
    session escape: whatever the session does, none of them raises
    [ClientError]. *)
Theorem gateway_never_leaks_transport_error (session : Session)
    (self : HakunaApiClient) (msg : string) :
  (forall method endpoint params json_data,
      _request session self method endpoint params json_data
        <> Raise (ClientError msg)) /\
  get_timer session self <> Raise (ClientError msg) /\
  (forall t p n, start_timer session self t p n <> Raise (ClientError msg)) /\
  stop_timer session self <> Raise (ClientError msg) /\
  cancel_timer session self <> Raise (ClientError msg) /\
  (forall u, get_overview session self u <> Raise (ClientError msg)) /\
  (forall s e u, get_time_entries session self s e u <> Raise (ClientError msg)) /\
  (forall id, get_time_entry session self id <> Raise (ClientError msg)) /\
  (forall now y u, get_absences session now self y u <> Raise (ClientError msg)) /\
  get_users session self <> Raise (ClientError msg) /\
  get_presence session self <> Raise (ClientError msg) /\
  get_projects session self <> Raise (ClientError msg) /\
  get_tasks session self <> Raise (ClientError msg) /\
  get_company session self <> Raise (ClientError msg) /\
  get_absence_types session self <> Raise (ClientError msg) /\
  ping session self <> Raise (ClientError msg) /\
  is_timer_running session self <> Raise (ClientError msg).
Proof.
  repeat match goal with
    | |- _ /\ _ => split
    | |- forall _, _ => intro
    end;
  first [ apply _request_no_client_error
        | apply get_timer_no_client_error
        | apply bind_no_client_error;
          [ first [ apply _request_no_client_error
                  | apply get_timer_no_client_error ]
          | intros; discriminate ] ].
Qed.

Lemma bind_Raise {A B} (m : result A) (k : A -> result B) (e : exn) :
  m = Raise e -> m ≫= k = Raise e.
Proof. now intros ->. Qed.

(** X2: every wrapper passes on the exception of its request
    unchanged: neither the empty-list default of the list operations
    nor the date test of [get_timer] swallows or replaces it. *)
Theorem operations_propagate_request_failures (session : Session)
    (self : HakunaApiClient) (e : exn) :
  (_request session self "GET" "/timer" None None = Raise e ->
   get_timer session self = Raise e /\
   is_timer_running session self = Raise e) /\
  (_request session self "DELETE" "/timer" None None = Raise e ->
   cancel_timer session self = Raise e) /\
  (forall s en u,
      _request session self "GET" "/time_entries"
        (Some (time_entries_params s en u)) None = Raise e ->
      get_time_entries session self s en u = Raise e) /\
  (forall now y u,
      _request session self "GET" "/absences"
        (Some (absences_params now y u)) None = Raise e ->
      get_absences session now self y u = Raise e) /\
  (_request session self "GET" "/users" None None = Raise e ->
   get_users session self = Raise e) /\
  (_request session self "GET" "/presence" None None = Raise e ->
   get_presence session self = Raise e) /\
  (_request session self "GET" "/projects" None None = Raise e ->
   get_projects session self = Raise e) /\
  (_request session self "GET" "/tasks" None None = Raise e ->
   get_tasks session self = Raise e) /\
  (_request session self "GET" "/absence_types" None None = Raise e ->
   get_absence_types session self = Raise e).
Proof.
  split.
  { intros H.
    assert (Ht : get_timer session self = Raise e) by now apply bind_Raise.
    split; [exact Ht|]. unfold is_timer_running. now apply bind_Raise. }
  repeat split; intros; now apply bind_Raise.
Qed.

Lemma operations_propagate_request_failures_witness :
  get_users Scenario.presence_unreachable Scenario.client
  = Raise (HakunaAuthError "Invalid API token").
Proof.
  apply (operations_propagate_request_failures
           Scenario.presence_unreachable Scenario.client
           (HakunaAuthError "Invalid API token")).
  vm_compute. reflexivity.
Defined.

(** X3: [start_timer] posts to the timer endpoint a body from which
    each supplied argument reads back unchanged (a task id of 0
    included) and which has no other field; it sends no body at all
    exactly when all three arguments are [None]. *)
Theorem start_timer_body (session : Session) (self : HakunaApiClient)
    (task_id project_id note : json) :
  let data := start_timer_data task_id project_id note in
  start_timer session self task_id project_id note =
  _request session self "POST" "/timer" None
    (if is_none task_id && is_none project_id && is_none note
     then None else Some data) /\
  dict_get data "task_id" = task_id /\
  dict_get data "project_id" = project_id /\
  dict_get data "note" = note /\
  (forall k, is_Some (data !! k) ->
             k = "task_id" \/ k = "project_id" \/ k = "note").
Proof.
  cbv zeta. unfold start_timer, start_timer_data.
  assert (Hnone : forall v, is_none v = true -> v = JNull)
    by (intros []; simpl; congruence).
  destruct (is_none task_id) eqn:Et; destruct (is_none project_id) eqn:Ep;
    destruct (is_none note) eqn:En;
    try apply Hnone in Et; try apply Hnone in Ep; try apply Hnone in En;
    subst; (split; [reflexivity|]); unfold dict_get;
    repeat split;
    try (intros k [v Hk];
         repeat (apply lookup_insert_Some in Hk as [[<- _]|[_ Hk]]; [auto|]);
         rewrite lookup_empty in Hk; discriminate);
    vm_compute; reflexivity.
Qed.

Lemma start_timer_body_witness :
  "task_id" = "task_id" \/ "task_id" = "project_id" \/ "task_id" = "note".
Proof.
  apply (proj2 (proj2 (proj2 (proj2
           (start_timer_body Scenario.healthy Scenario.client
              (JNum 1) JNull JNull))))).
  eexists. vm_compute. reflexivity.
Defined.

Example start_timer_sends_task_id_zero :
  start_timer_data (JNum 0) JNull JNull = {[ "task_id" := JNum 0 ]}.
Proof. reflexivity. Qed.

(** X4: [get_absences] without a year asks for the current year, and
    with a year never looks at the clock. *)
Theorem absences_year_defaults_to_now (session : Session)
    (self : HakunaApiClient) (now_year : Z) (user_id : option Z) :
  get_absences session now_year self None user_id
    = get_absences session now_year self (Some now_year) user_id /\
  (forall y other_year,
      get_absences session now_year self (Some y) user_id
        = get_absences session other_year self (Some y) user_id).
Proof. split; reflexivity. Qed.

(** X5: the query of [get_time_entries] always carries both ends of
    the range as text, a date in ISO form and a string as given; the
    user filter is present exactly when a user id is given and never
    displaces a date; there is no other parameter. *)
Theorem time_entries_query_fields (start_date : date_or_str)
    (end_date : option date_or_str) (user_id : option Z) :
  let text a := match a with ADate d => isoformat d | AStr s => s end in
  let query := time_entries_params start_date end_date user_id in
  query !! "start_date" = Some (JStr (text start_date)) /\
  query !! "end_date" = Some (JStr (text (default start_date end_date))) /\
  query !! "user_id" = JNum <$> user_id /\
  (forall k, is_Some (query !! k) ->
             k = "start_date" \/ k = "end_date" \/ k = "user_id").
Proof.
  cbv zeta. unfold time_entries_params.
  set (s := match start_date with ADate d => isoformat d | AStr s => s end).
  set (e := match end_date with
            | Some (ADate d) => isoformat d
            | Some (AStr s0) => s0
            | None => s
            end).
  assert (He : match default start_date end_date with
               | ADate d => isoformat d | AStr s0 => s0
               end = e)
    by (destruct end_date as [[d|s0]|]; reflexivity).
  rewrite He. clearbody s e. clear He.
  destruct user_id as [u|]; (split; [|split; [|split]]);
    try (vm_compute; reflexivity);
    intros k [v Hk];
    repeat (apply lookup_insert_Some in Hk as [[<- _]|[_ Hk]]; [auto|]);
    apply lookup_singleton_Some in Hk as [<- _]; auto.
Qed.

Lemma time_entries_query_fields_witness :
  "user_id" = "start_date" \/ "user_id" = "end_date" \/ "user_id" = "user_id".
Proof.
  apply (proj2 (proj2 (proj2
           (time_entries_query_fields (AStr "2024-03-09") None (Some 7))))).
  eexists. vm_compute. reflexivity.
Defined.

Lemma str_int_inj (a b : Z) : str_int a = str_int b -> a = b.
Proof.
  unfold str_int. intros H.
  assert (Hnorm : forall z, Z.to_int z <> Decimal.Pos Decimal.Nil /\
                            Z.to_int z <> Decimal.Neg Decimal.Nil).
  { intros z. split; intros E;
      pose proof (DecimalZ.of_to z) as Hz; rewrite E in Hz;
      vm_compute in Hz; subst z; discriminate E. }
  apply DecimalZ.to_int_inj.
  assert (Hs : Some (Z.to_int a) = Some (Z.to_int b)).
  { rewrite <- (NilZero.isi (Z.to_int a)) by apply Hnorm.
    rewrite <- (NilZero.isi (Z.to_int b)) by apply Hnorm.
    now rewrite H. }
  now injection Hs.
Qed.

(** X6: [get_time_entry] asks for an endpoint that tells the entry
    id: two ids that get the same answer from every service are
    equal. *)
Theorem time_entry_requests_distinct (self : HakunaApiClient) (a b : Z) :
  (forall session : Session,
      get_time_entry session self a = get_time_entry session self b) ->
  a = b.
Proof.
  intros H.
  specialize (H (fun req => Ok (Scenario.respond 200 (JStr (req_url req))))).
  unfold get_time_entry, _request in H. simpl in H.
  injection H as H. apply str_int_inj. exact H.
Qed.

Lemma time_entry_requests_distinct_witness : (42 : Z) = 42.
Proof.
  apply (time_entry_requests_distinct Scenario.client 42 42).
  intros session. reflexivity.
Defined.

(** X7: when the service answers a list operation with a success
    status other than 204 and a non-empty array, the operation returns
    that array as it is. *)
Theorem list_operations_pass_lists_through (session : Session)
    (self : HakunaApiClient) (r : Response) (x : json) (l : list json) :
  resp_status r < 400 -> resp_status r <> 204 ->
  resp_json r = Ok (JArr (x :: l)) ->
  (forall s e u,
      session (build_request self "GET" "/time_entries"
                 (Some (time_entries_params s e u)) None) = Ok r ->
      get_time_entries session self s e u = Ok (JArr (x :: l))) /\
  (forall now y u,
      session (build_request self "GET" "/absences"
                 (Some (absences_params now y u)) None) = Ok r ->
      get_absences session now self y u = Ok (JArr (x :: l))) /\
  (session (build_request self "GET" "/users" None None) = Ok r ->
   get_users session self = Ok (JArr (x :: l))) /\
  (session (build_request self "GET" "/presence" None None) = Ok r ->
   get_presence session self = Ok (JArr (x :: l))) /\
  (session (build_request self "GET" "/projects" None None) = Ok r ->
   get_projects session self = Ok (JArr (x :: l))) /\
  (session (build_request self "GET" "/tasks" None None) = Ok r ->
   get_tasks session self = Ok (JArr (x :: l))) /\
  (session (build_request self "GET" "/absence_types" None None) = Ok r ->
   get_absence_types session self = Ok (JArr (x :: l))).
Proof.
  intros Hlt Hne Hbody.
  assert (Hreq : forall method endpoint params json_data,
             session (build_request self method endpoint params json_data)
               = Ok r ->
             (_request session self method endpoint params json_data
                ≫= fun result => mret (or_empty_list result))
             = Ok (JArr (x :: l))).
  { intros method endpoint params json_data H.
    now rewrite (_request_body _ _ _ _ _ _ _ _ H Hlt Hne Hbody). }
  repeat split; intros; now apply Hreq.
Qed.

Lemma list_operations_pass_lists_through_witness :
  get_presence Scenario.idle_with_team Scenario.client
  = Ok (JArr [Scenario.colleague]).
Proof.
  pose proof (list_operations_pass_lists_through
                Scenario.idle_with_team Scenario.client
                (Scenario.respond 200 (JArr [Scenario.colleague]))
                Scenario.colleague []
                ltac:(simpl; lia) ltac:(simpl; lia) eq_refl)
    as (_ & _ & _ & W & _).
  apply W. reflexivity.
Defined.

Lemma get_timer_object_present_witness :
  dict_get {[ "date" := JStr "2016-11-08"; "start_time" := JStr "19:00";
              "duration_in_seconds" := JNum 8138 ]} "date" <> JNull.
Proof.
  apply (get_timer_object_present Scenario.healthy Scenario.client).
  - vm_compute. reflexivity.
  - intros E. apply (f_equal size) in E. vm_compute in E. discriminate E.
Defined.

(** X9: [is_timer_running] and a refresh cycle against the same
    service agree: the helper returns the [timer_running] of the
    Snapshot the cycle returns. *)
Theorem is_timer_running_agrees_with_snapshot (session : Session)
    (self : HakunaDataUpdateCoordinator) (snapshot : Snapshot) :
  _async_update_data session self = Ok snapshot ->
  is_timer_running session (api_client self) = Ok (timer_running snapshot).
Proof.
  intros H. apply update_data_Ok_inv in H
    as (t & o & p & u & tk & d & Ht & _ & _ & _ & _ & _ & ->).
  unfold is_timer_running. now rewrite Ht.
Qed.

Lemma is_timer_running_agrees_with_snapshot_witness :
  is_timer_running Scenario.healthy Scenario.client = Ok true.
Proof.
  apply (is_timer_running_agrees_with_snapshot Scenario.healthy
           (new_coordinator Scenario.client) Scenario.healthy_snapshot).
  vm_compute. reflexivity.
Defined.

(** ** Further properties of the refresh cycle *)





Lemma py_get_no_client_error (v : json) (k msg : string) :
  py_get v k <> Raise (ClientError msg).
Proof. destruct v; discriminate. Qed.

Lemma find_default_task_no_client_error (items : list json) (msg : string) :
  find_default_task items <> Raise (ClientError msg).
Proof.
  induction items as [|task rest IH]; [discriminate|].
  cbn [find_default_task].
  destruct task; try discriminate.
  cbn [py_get mbind result_bind mret result_ret].
  destruct (truthy (dict_get d "default")); cbn [mbind result_bind mret result_ret];
    [destruct (negb (truthy (dict_get d "archived")))|]; auto; discriminate.
Qed.

Lemma find_active_task_no_client_error (items : list json) (msg : string) :
  find_active_task items <> Raise (ClientError msg).
Proof.
  induction items as [|task rest IH]; [discriminate|].
  cbn [find_active_task].
  destruct task; try discriminate.
  cbn [py_get mbind result_bind mret result_ret].
  destruct (negb (truthy (dict_get d "archived"))); auto; discriminate.
Qed.

Lemma select_default_task_no_client_error (tasks : json) (msg : string) :
  select_default_task tasks <> Raise (ClientError msg).
Proof.
  unfold select_default_task.
  apply bind_no_client_error; [destruct tasks; discriminate|]. intros items.
  apply bind_no_client_error; [apply find_default_task_no_client_error|].
  intros d. destruct (is_none d && truthy tasks); [|discriminate].
  apply bind_no_client_error; [destruct tasks; discriminate|]. intros items'.
  apply find_active_task_no_client_error.
Qed.

Lemma except_api_no_gateway_error {A} (m : result A) (dflt : A) (e : exn) :
  except_api m dflt = Raise e -> m = Raise e /\ is_HakunaApiError e = false.
Proof.
  destruct m as [a|e']; simpl; [discriminate|].
  destruct (is_HakunaApiError e') eqn:He; [discriminate|].
  now intros [= ->].
Qed.

(** X11: a refresh cycle never fails with a Gateway error or a
    transport error: every [HakunaApiError], subclasses included,
    leaves it as [UpdateFailed], so that an exception that is raised
    is either [UpdateFailed] or unrelated to the Gateway. *)
Theorem refresh_failure_is_never_a_gateway_error (session : Session)
    (self : HakunaDataUpdateCoordinator) (e : exn) :
  _async_update_data session self = Raise e ->
  is_HakunaApiError e = false /\ (forall msg, e <> ClientError msg).
Proof.
  unfold _async_update_data.
  match goal with
  | |- match ?a with _ => _ end = _ -> _ =>
      assert (Hattempt : forall msg, a <> Raise (ClientError msg));
      [|destruct a as [snapshot|e0]]
  end.
  - intros msg.
    apply bind_no_client_error; [apply get_timer_no_client_error|]. intros t.
    apply bind_no_client_error; [apply _request_no_client_error|]. intros o.
    apply bind_no_client_error.
    { intros H. apply except_api_no_gateway_error in H as [H _]. revert H.
      apply bind_no_client_error;
        [apply _request_no_client_error | intros; discriminate]. }
    intros p. apply bind_no_client_error.
    { intros H. apply except_api_no_gateway_error in H as [H _]. revert H.
      apply bind_no_client_error;
        [apply _request_no_client_error | intros; discriminate]. }
    intros u. apply bind_no_client_error.
    { intros H. apply except_api_no_gateway_error in H as [H _]. revert H.
      apply bind_no_client_error;
        [apply _request_no_client_error | intros; discriminate]. }
    intros tk. apply bind_no_client_error;
      [apply select_default_task_no_client_error | intros; discriminate].
  - discriminate.
  - destruct e0 as [m|m|m|m|m|m];
      try (exfalso; now apply (Hattempt m));
      simpl; intros [= <-]; split; try reflexivity; discriminate.
Qed.

Lemma refresh_failure_is_never_a_gateway_error_witness :
  is_HakunaApiError
    (UpdateFailed "Authentication failed: Invalid API token") = false /\
  (forall msg,
      UpdateFailed "Authentication failed: Invalid API token"
        <> ClientError msg).
Proof.
  apply (refresh_failure_is_never_a_gateway_error
           Scenario.overview_unauthorized Scenario.warm_coordinator).
  vm_compute. reflexivity.
Defined.

(** X12: the selection never yields the id of an archived task: an id
    that comes out of a list of task objects belongs to one of them
    that is not archived. *)
Theorem selected_task_is_not_archived (ts : list (gmap string json))
    (id : json) :
  select_default_task (JArr (JObj <$> ts)) = Ok id ->
  id <> JNull ->
  exists t, In t ts /\ flag_archived t = false /\ dict_get t "id" = id.
Proof.
  rewrite select_default_task_dicts. cbv zeta. intros [= <-] Hid.
  assert (Hfallback :
    match List.find (fun t => negb (flag_archived t)) ts with
    | Some t => dict_get t "id"
    | None => JNull
    end <> JNull ->
    exists t, In t ts /\ flag_archived t = false /\
              dict_get t "id" =
              match List.find (fun t => negb (flag_archived t)) ts with
              | Some t => dict_get t "id"
              | None => JNull
              end).
  { destruct (List.find (fun t => negb (flag_archived t)) ts) as [t|] eqn:E;
      [|congruence].
    intros _. apply List.find_some in E as [Hin Ha].
    exists t. apply negb_true_iff in Ha. auto. }
  destruct (List.find (fun t => flag_default t && negb (flag_archived t)) ts)
    as [t|] eqn:E; [|now apply Hfallback].
  destruct (is_none (dict_get t "id")) eqn:En; [now apply Hfallback|].
  apply List.find_some in E as [Hin Ha].
  apply andb_true_iff in Ha as [_ Ha]. apply negb_true_iff in Ha.
  exists t. auto.
Qed.

Lemma selected_task_is_not_archived_witness :
  exists t, In t [Scenario.task 1 false false; Scenario.task 2 true true;
                  Scenario.task 3 false false] /\
            flag_archived t = false /\ dict_get t "id" = JNum 1.
Proof.
  apply (selected_task_is_not_archived
           [Scenario.task 1 false false; Scenario.task 2 true true;
            Scenario.task 3 false false] (JNum 1)).
  - vm_compute. reflexivity.
  - discriminate.
Defined.

(** X13: when the timer endpoint answers 404, a cycle that completes
    publishes no timer and [timer_running = False]. *)
Theorem timer_not_found_gives_idle_snapshot (session : Session)
    (self : HakunaDataUpdateCoordinator) (r : Response) (snapshot : Snapshot) :
  session (build_request (api_client self) "GET" "/timer" None None) = Ok r ->
  resp_status r = 404 ->
  _async_update_data session self = Ok snapshot ->
  timer snapshot = JNull /\ timer_running snapshot = false.
Proof.
  intros Hr Hs H. apply update_data_Ok_inv in H
    as (t & o & p & u & tk & d & Ht & _ & _ & _ & _ & _ & ->).
  rewrite (get_timer_404 _ _ _ Hr Hs) in Ht. injection Ht as <-. auto.
Qed.

Lemma timer_not_found_gives_idle_snapshot_witness :
  exists snapshot,
    _async_update_data Scenario.idle_with_team
      (new_coordinator Scenario.client) = Ok snapshot /\
    timer snapshot = JNull /\ timer_running snapshot = false.
Proof.
  destruct (_async_update_data Scenario.idle_with_team
              (new_coordinator Scenario.client)) as [snapshot|e] eqn:E;
    [|vm_compute in E; discriminate E].
  exists snapshot. split; [reflexivity|].
  apply (timer_not_found_gives_idle_snapshot Scenario.idle_with_team
           (new_coordinator Scenario.client) (Scenario.respond 404 JNull)
           snapshot); [reflexivity | reflexivity | exact E].
Defined.

(** ** Buttons and binary sensors *)

(** X14: a press does not swallow the failure of its action.  If the
    Gateway call of the start, stop or cancel button raises, the press
    raises the same exception; so a 401 answer to the stop request
    reaches the caller as the authentication error, and a transport
    failure of the cancel request as the connection error. *)
Theorem press_reraises_action_failure (session : Session)
    (coordinator : HakunaDataUpdateCoordinator) (api : HakunaApiClient) :
  (forall e,
      stop_timer session api = Raise e ->
      async_press session coordinator api "stop_timer" = Raise e) /\
  (forall e,
      cancel_timer session api = Raise e ->
      async_press session coordinator api "cancel_timer" = Raise e) /\
  (forall e,
      start_timer session api
        (match data coordinator with
         | Some snapshot => default_task_id snapshot
         | None => JNull
         end) JNull JNull = Raise e ->
      async_press session coordinator api "start_timer" = Raise e) /\
  (forall r,
      session (build_request api "PUT" "/timer" None None) = Ok r ->
      resp_status r = 401 ->
      async_press session coordinator api "stop_timer"
      = Raise (HakunaAuthError "Invalid API token")) /\
  (forall msg,
      session (build_request api "DELETE" "/timer" None None)
        = Raise (ClientError msg) ->
      async_press session coordinator api "cancel_timer"
      = Raise (HakunaApiError ("Connection error: " ++ msg))).
Proof.
  assert (Hstop : forall e,
             stop_timer session api = Raise e ->
             async_press session coordinator api "stop_timer" = Raise e)
    by (intros e H; unfold async_press; simpl; now rewrite H).
  assert (Hcancel : forall e,
             cancel_timer session api = Raise e ->
             async_press session coordinator api "cancel_timer" = Raise e)
    by (intros e H; unfold async_press; simpl; now rewrite H).
  split; [exact Hstop|]. split; [exact Hcancel|]. split; [|split].
  - intros e H. unfold async_press. simpl. now rewrite H.
  - intros r Hr Hs. apply Hstop. unfold stop_timer.
    now apply (_request_401 _ _ _ _ _ _ r).
  - intros msg H. apply Hcancel. unfold cancel_timer.
    now rewrite (_request_transport_error _ _ _ _ _ _ _ H).
Qed.

Lemma press_reraises_action_failure_witness :
  async_press (Scenario.read_only Scenario.healthy) Scenario.warm_coordinator
    Scenario.client "stop_timer"
  = Raise (HakunaApiError "Connection error: Server disconnected").
Proof.
  apply (proj1 (press_reraises_action_failure
                  (Scenario.read_only Scenario.healthy)
                  Scenario.warm_coordinator Scenario.client)).
  vm_compute. reflexivity.
Defined.

(** X15: the start button starts the timer on the default task of the
    published Snapshot: the body it posts is the single field
    [task_id] with that id, and there is no body when nothing is
    published or the Snapshot has no default task. *)
Theorem press_start_sends_default_task (session : Session)
    (coordinator : HakunaDataUpdateCoordinator) (api : HakunaApiClient) :
  async_press session coordinator api "start_timer" =
  (_ ← _request session api "POST" "/timer" None
         match data coordinator with
         | Some snapshot =>
             if is_none (default_task_id snapshot) then None
             else Some {[ "task_id" := default_task_id snapshot ]}
         | None => None
         end;
   mret (async_refresh session coordinator)).
Proof.
  unfold async_press, start_timer, start_timer_data. simpl.
  destruct (data coordinator) as [snapshot|]; simpl.
  - destruct (is_none (default_task_id snapshot)); simpl;
      destruct (_request _ _ _ _ _ _); reflexivity.
  - destruct (_request _ _ _ _ _ _); reflexivity.
Qed.



(** X17: after a press whose refresh returned a Snapshot, the buttons
    and the binary sensor show the timer of that Snapshot: stop and
    cancel are available, and the sensor is on, exactly when it holds a
    timer; start is available exactly when it holds none. *)
Theorem press_then_buttons_follow_timer (session : Session)
    (coordinator after : HakunaDataUpdateCoordinator)
    (api : HakunaApiClient) (key : string) (snapshot : Snapshot) :
  async_press session coordinator api key = Ok after ->
  _async_update_data session coordinator = Ok snapshot ->
  data after = Some snapshot /\
  available after "start_timer" = is_none (timer snapshot) /\
  available after "stop_timer" = negb (is_none (timer snapshot)) /\
  available after "cancel_timer" = negb (is_none (timer snapshot)) /\
  BinarySensor.is_on after "timer_running"
    = Some (negb (is_none (timer snapshot))).
Proof.
  intros Hpress Hcycle. unfold async_press in Hpress.
  apply bind_Ok_inv in Hpress as (_ & _ & Hpress). injection Hpress as <-.
  rewrite (async_refresh_success _ _ _ Hcycle).
  apply update_data_Ok_inv in Hcycle
    as (t & o & p & u & tk & d & _ & _ & _ & _ & _ & _ & ->).
  unfold available, BinarySensor.is_on. simpl.
  rewrite negb_involutive. auto.
Qed.

Lemma press_then_buttons_follow_timer_witness :
  available (async_refresh Scenario.healthy Scenario.warm_coordinator)
    "stop_timer" = true.
Proof.
  apply (press_then_buttons_follow_timer Scenario.healthy
           Scenario.warm_coordinator
           (async_refresh Scenario.healthy Scenario.warm_coordinator)
           Scenario.client "refresh" Scenario.healthy_snapshot).
  - reflexivity.
  - vm_compute. reflexivity.
Defined.

(** X18: the binary sensor and the buttons never disagree.  While the
    sensor has no state no button is available; when it is on, stop and
    cancel are available and start is not; when it is off, the reverse. *)
Theorem is_on_matches_buttons (coordinator : HakunaDataUpdateCoordinator) :
  match BinarySensor.is_on coordinator "timer_running" with
  | None => forall key, available coordinator key = false
  | Some running =>
      available coordinator "stop_timer" = running /\
      available coordinator "cancel_timer" = running /\
      available coordinator "start_timer" = negb running
  end.
Proof.
  unfold BinarySensor.is_on, available.
  destruct (data coordinator); simpl; auto.
Qed.

Lemma truthy_object (d : gmap string json) : d <> ∅ -> truthy (JObj d) = true.
Proof.
  intros Hd. simpl. destruct (size d) eqn:Hsz; [|reflexivity].
  apply map_size_empty_iff in Hsz. contradiction.
Qed.

(** X19: the attributes of the timer sensor.  Without a Snapshot, or
    with a Snapshot that holds no timer, there are none.  For a timer
    object, the attributes that come out copy its start time, duration,
    seconds, note and date under their attribute names, and every
    attribute is one of eleven known names. *)
Theorem timer_attributes (coordinator : HakunaDataUpdateCoordinator) :
  (data coordinator = None ->
   BinarySensor.extra_state_attributes coordinator = Ok ∅) /\
  (forall snapshot,
      data coordinator = Some snapshot -> truthy (timer snapshot) = false ->
      BinarySensor.extra_state_attributes coordinator = Ok ∅) /\
  (forall snapshot d attrs,
      data coordinator = Some snapshot -> timer snapshot = JObj d -> d <> ∅ ->
      BinarySensor.extra_state_attributes coordinator = Ok attrs ->
      attrs !! "start_time" = Some (dict_get d "start_time") /\
      attrs !! "duration" = Some (dict_get d "duration") /\
      attrs !! "duration_seconds" = Some (dict_get d "duration_in_seconds") /\
      attrs !! "note" = Some (dict_get d "note") /\
      attrs !! "date" = Some (dict_get d "date") /\
      (forall k, is_Some (attrs !! k) ->
                 In k ["start_time"; "duration"; "duration_seconds"; "note";
                       "date"; "task"; "task_id"; "project"; "project_id";
                       "user_name"; "user_id"])).
Proof.
  unfold BinarySensor.extra_state_attributes.
  split; [now intros -> | split; [now intros s -> -> |]].
  intros snapshot d attrs -> -> Hd. rewrite (truthy_object d Hd).
  cbn [py_get mbind result_bind mret result_ret].
  intros H.
  repeat match type of H with
    | context [truthy ?x] => destruct (truthy x)
    | context [py_getitem (JObj d) ?k] =>
        unfold py_getitem at 1 in H; destruct (d !! k) as [[]|];
        cbn [py_get mbind result_bind mret result_ret] in H
    end;
    cbn [py_get mbind result_bind mret result_ret] in H;
    try discriminate H;
    injection H as <-;
    (repeat split;
     [ repeat (rewrite lookup_insert_ne by discriminate);
       apply lookup_insert_eq .. |
       intros k [v Hk];
       repeat (apply lookup_insert_Some in Hk as [[<- _]|[_ Hk]];
               [simpl; tauto|]);
       rewrite lookup_empty in Hk; discriminate Hk ]).
Qed.

Lemma timer_attributes_witness :
  exists attrs,
    BinarySensor.extra_state_attributes Scenario.running_coordinator
      = Ok attrs /\
    attrs !! "date" = Some (JStr "2016-11-08") /\
    attrs !! "duration_seconds" = Some (JNum 8138).
Proof.
  destruct (BinarySensor.extra_state_attributes Scenario.running_coordinator)
    as [attrs|e] eqn:E; [|vm_compute in E; discriminate E].
  exists attrs. split; [reflexivity|].
  destruct (proj2 (proj2 (timer_attributes Scenario.running_coordinator))
              Scenario.healthy_snapshot
              {[ "date" := JStr "2016-11-08"; "start_time" := JStr "19:00";
                 "duration_in_seconds" := JNum 8138 ]}
              attrs eq_refl eq_refl)
    as (_ & _ & Hsec & _ & Hdate & _).
  - intros Habs. apply (f_equal size) in Habs. vm_compute in Habs.
    discriminate Habs.
  - exact E.
  - split; [exact Hdate | exact Hsec].
Defined.

(** ** Team sensors *)




Lemma find_member_objects (user_id : json) (ms : list (gmap string json)) :
  Forall (fun m => exists u, default (JObj ∅) (m !! "user") = JObj u) ms ->
  BinarySensor.find_member user_id (JObj <$> ms) =
  Ok ((fun m => (JObj m, default (JObj ∅) (m !! "user"))) <$>
        List.find (fun m => py_eq (BinarySensor.member_user_id m) user_id) ms).
Proof.
  induction 1 as [|m ms [u Hu] _ IH]; [reflexivity|].
  cbn [fmap list_fmap BinarySensor.find_member List.find py_get_default
       mbind result_bind].
  unfold BinarySensor.member_user_id. rewrite Hu.
  cbn [py_get mbind result_bind].
  destruct (py_eq (dict_get u "id") user_id); [|exact IH].
  cbn [fmap option_fmap option_map]. now rewrite Hu.
Qed.

(** X21: a team sensor reports the first presence member whose user id
    equals its own: for a presence list of member objects whose users
    are objects (or missing), [is_on] is that member's
    [has_timer_running] ([False] if the member lacks the field), and
    [None] when no member matches. *)
Theorem team_is_on_first_match (self : BinarySensor.HakunaTeamMemberSensor)
    (coordinator : HakunaDataUpdateCoordinator) (snapshot : Snapshot)
    (ms : list (gmap string json)) :
  data coordinator = Some snapshot ->
  presence snapshot = JArr (JObj <$> ms) ->
  Forall (fun m => exists u, default (JObj ∅) (m !! "user") = JObj u) ms ->
  BinarySensor.team_is_on self coordinator =
  Ok match List.find (fun m => py_eq (BinarySensor.member_user_id m)
                                     (BinarySensor._user_id self)) ms with
     | Some m => default (JBool false) (m !! "has_timer_running")
     | None => JNull
     end.
Proof.
  intros Hdata Hp Hms. unfold BinarySensor.team_is_on.
  rewrite Hdata, Hp. cbn [py_iter mbind result_bind].
  rewrite (find_member_objects _ _ Hms).
  destruct (List.find _ ms); reflexivity.
Qed.

Lemma team_is_on_first_match_witness :
  BinarySensor.team_is_on
    {| BinarySensor._user_id := JNum 7;
       BinarySensor._user_name := JStr "Ada" |}
    Scenario.team_coordinator
  = Ok (JBool true).
Proof.
  destruct (data Scenario.team_coordinator) as [snapshot|] eqn:E;
    [|vm_compute in E; discriminate E].
  rewrite (team_is_on_first_match _ Scenario.team_coordinator snapshot
             [ {[ "user" := JObj {[ "id" := JNum 7; "name" := JStr "Ada" ]};
                  "has_timer_running" := JBool true ]} ] E).
  - vm_compute. reflexivity.
  - vm_compute in E. injection E as <-. vm_compute. reflexivity.
  - repeat constructor. eexists. vm_compute. reflexivity.
Defined.

(** ** Sensors *)

(** X22: no timer, no timer readings.  Before a Snapshot is published
    every sensor is [None]; with a Snapshot that holds no timer, the
    five timer sensors are [None], whatever the library functions do. *)
Theorem timer_sensors_none_when_idle {datetime : Type}
    (py_str : json -> string) (strptime_local : string -> option datetime)
    (coordinator : HakunaDataUpdateCoordinator) :
  (data coordinator = None ->
   forall key,
     Sensor.native_value py_str strptime_local coordinator key
       = Ok (Sensor.Plain JNull)) /\
  (forall snapshot,
      data coordinator = Some snapshot -> truthy (timer snapshot) = false ->
      forall key,
        In key ["timer_duration"; "timer_duration_seconds";
                "timer_start_time"; "timer_project"; "timer_task"] ->
        Sensor.native_value py_str strptime_local coordinator key
          = Ok (Sensor.Plain JNull)).
Proof.
  unfold Sensor.native_value. split.
  - now intros ->.
  - intros snapshot -> Ht key Hkey. simpl in Hkey.
    destruct Hkey as [<-|[<-|[<-|[<-|[<-|[]]]]]]; simpl; now rewrite Ht.
Qed.

Lemma timer_sensors_none_when_idle_witness :
  Sensor.native_value (fun _ => "") (fun _ => @None unit)
    Scenario.warm_coordinator "timer_start_time"
  = Ok (Sensor.Plain JNull).
Proof.
  apply (proj2 (timer_sensors_none_when_idle (fun _ => "")
                  (fun _ => @None unit) Scenario.warm_coordinator)
           Scenario.earlier_snapshot eq_refl eq_refl).
  simpl. auto.
Defined.

(** X23: the overview sensors need an overview object.  When the
    overview endpoint answers 404 or 204 the cycle still publishes a
    Snapshot, with [None] for the overview, and on it each of the four
    overview sensors raises [AttributeError] instead of giving a
    state. *)
Theorem overview_sensors_need_overview_object {datetime : Type}
    (py_str : json -> string) (strptime_local : string -> option datetime)
    (session : Session) (self coordinator : HakunaDataUpdateCoordinator)
    (r : Response) (snapshot : Snapshot) :
  session (build_request (api_client self) "GET" "/overview" None None)
    = Ok r ->
  resp_status r = 404 \/ resp_status r = 204 ->
  _async_update_data session self = Ok snapshot ->
  data coordinator = Some snapshot ->
  overview snapshot = JNull /\
  forall key,
    In key ["overtime"; "overtime_seconds"; "vacation_remaining";
            "vacation_redeemed"] ->
    Sensor.native_value py_str strptime_local coordinator key
      = Raise (OtherError "AttributeError: object has no attribute 'get'").
Proof.
  intros Hr Hs Hcycle Hdata.
  apply update_data_Ok_inv in Hcycle
    as (t & o & p & u & tk & d & _ & Ho & _ & _ & _ & _ & ->).
  assert (o = JNull) as ->.
  { change (get_overview session (api_client self) None)
      with (_request session (api_client self) "GET" "/overview" None None)
      in Ho.
    destruct Hs as [Hs|Hs];
      [rewrite (_request_404 _ _ _ _ _ _ _ Hr Hs) in Ho
      |rewrite (_request_204 _ _ _ _ _ _ _ Hr Hs) in Ho];
      now injection Ho. }
  split; [reflexivity|].
  intros key Hkey. unfold Sensor.native_value. rewrite Hdata. simpl in Hkey.
  destruct Hkey as [<-|[<-|[<-|[<-|[]]]]]; reflexivity.
Qed.

Lemma overview_sensors_need_overview_object_witness :
  Sensor.native_value (fun _ => "") (fun _ => @None unit)
    Scenario.lost_overview_coordinator "overtime"
  = Raise (OtherError "AttributeError: object has no attribute 'get'").
Proof.
  destruct (_async_update_data Scenario.lost_overview
              (new_coordinator Scenario.client)) as [snapshot|e] eqn:E;
    [|vm_compute in E; discriminate E].
  apply (proj2 (overview_sensors_need_overview_object
                  (fun _ => "") (fun _ => @None unit)
                  Scenario.lost_overview (new_coordinator Scenario.client)
                  Scenario.lost_overview_coordinator
                  (Scenario.respond 204 JNull) snapshot
                  eq_refl (or_intror eq_refl) E
                  ltac:(unfold Scenario.lost_overview_coordinator,
                          async_refresh; rewrite E; reflexivity))).
  simpl. auto.
Defined.

(** X24: the project sensor of a timer object shows the name of a
    project given as an object, the text of a project given as a bare
    id, and [None] when the timer has no project. *)
Theorem timer_project_sensor {datetime : Type}
    (py_str : json -> string) (strptime_local : string -> option datetime)
    (coordinator : HakunaDataUpdateCoordinator) (snapshot : Snapshot)
    (d : gmap string json) :
  data coordinator = Some snapshot -> timer snapshot = JObj d -> d <> ∅ ->
  Sensor.native_value py_str strptime_local coordinator "timer_project" =
  Ok (Sensor.Plain
        (let project := dict_get d "project" in
         if truthy project then
           match project with
           | JObj p => dict_get p "name"
           | _ => JStr (py_str project)
           end
         else JNull)).
Proof.
  intros Hdata Ht Hd. unfold Sensor.native_value. rewrite Hdata, Ht. simpl String.eqb.
  cbv iota. rewrite (truthy_object d Hd).
  cbn [py_get mbind result_bind mret result_ret]. cbv zeta.
  unfold dict_get, py_getitem.
  destruct (d !! "project") as [project|] eqn:Eproject;
    unfold from_option, id; [|reflexivity].
  destruct (truthy project) eqn:Ep; [|reflexivity].
  destruct project; reflexivity.
Qed.

Lemma timer_project_sensor_witness :
  Sensor.native_value (fun _ => "42") (fun _ => @None unit)
    Scenario.project_coordinator "timer_project"
  = Ok (Sensor.Plain (JStr "42")).
Proof.
  rewrite (timer_project_sensor (fun _ => "42") (fun _ => @None unit)
             Scenario.project_coordinator Scenario.project_snapshot
             {[ "date" := JStr "2016-11-08"; "project" := JNum 42 ]}
             eq_refl eq_refl).
  - vm_compute. reflexivity.
  - intros Habs. apply (f_equal size) in Habs. vm_compute in Habs.
    discriminate Habs.
Defined.

(** X25: of the sensors that are set up, only the timer-duration
    sensor ever has attributes: for every other key of
    [SENSOR_DESCRIPTIONS] the attributes are empty, whatever is
    published. *)
Theorem only_timer_duration_has_attributes
    (coordinator : HakunaDataUpdateCoordinator) (key : string) :
  In key Sensor.SENSOR_KEYS -> key <> "timer_duration" ->
  Sensor.extra_state_attributes coordinator key = Ok ∅.
Proof.
  unfold Sensor.SENSOR_KEYS, Sensor.extra_state_attributes.
  intros Hin Hne. simpl in Hin.
  destruct (data coordinator);
    destruct Hin as [<-|[<-|[<-|[<-|[<-|[<-|[<-|[<-|[<-|[]]]]]]]]]];
    try reflexivity; contradiction.
Qed.

Lemma only_timer_duration_has_attributes_witness :
  Sensor.extra_state_attributes Scenario.running_coordinator "overtime"
  = Ok ∅.
Proof.
  apply only_timer_duration_has_attributes.
  - simpl. auto.
  - discriminate.
Defined.

(** ** The setup dialogue *)

(** X26: a token the service does not accept creates no entry.  When
    the overview fetch raises, the step shows the form again:
    with [invalid_auth] for an authentication error (a 401 in
    particular), [cannot_connect] for any other Gateway error, and
    [unknown] for everything else. *)
Theorem rejected_token_creates_no_entry (session : Session)
    (py_str : json -> string) (py_hash : string -> Z)
    (configured : string -> bool) (token : string) :
  (forall e,
      get_overview session (new_client token None) None = Raise e ->
      ConfigFlow.async_step_user session py_str py_hash configured (Some token)
      = ConfigFlow.ShowForm "user"
          {[ "base" := match e with
                       | HakunaAuthError _ => "invalid_auth"
                       | _ => if is_HakunaApiError e then "cannot_connect"
                              else "unknown"
                       end ]}) /\
  (forall r,
      session (build_request (new_client token None) "GET" "/overview"
                 None None) = Ok r ->
      resp_status r = 401 ->
      ConfigFlow.async_step_user session py_str py_hash configured (Some token)
      = ConfigFlow.ShowForm "user" {[ "base" := "invalid_auth" ]}).
Proof.
  assert (Hraise : forall e,
             get_overview session (new_client token None) None = Raise e ->
             ConfigFlow.async_step_user session py_str py_hash configured
               (Some token)
             = ConfigFlow.ShowForm "user"
                 {[ "base" := match e with
                              | HakunaAuthError _ => "invalid_auth"
                              | _ => if is_HakunaApiError e
                                     then "cannot_connect" else "unknown"
                              end ]}).
  { intros e He. unfold ConfigFlow.async_step_user. rewrite He.
    cbn [mbind result_bind]. destruct e; reflexivity. }
  split; [exact Hraise|].
  intros r Hr Hs.
  apply (Hraise (HakunaAuthError "Invalid API token")).
  change (get_overview session (new_client token None) None)
    with (_request session (new_client token None) "GET" "/overview" None None).
  now apply (_request_401 _ _ _ _ _ _ r).
Qed.

Lemma rejected_token_creates_no_entry_witness :
  ConfigFlow.async_step_user Scenario.overview_unauthorized
    (fun _ => "") (fun _ => 0) (fun _ => false) (Some "secret-token")
  = ConfigFlow.ShowForm "user" {[ "base" := "invalid_auth" ]}.
Proof.
  apply (proj2 (rejected_token_creates_no_entry
                  Scenario.overview_unauthorized (fun _ => "") (fun _ => 0)
                  (fun _ => false) "secret-token")
           (Scenario.respond 401 JNull)); reflexivity.
Defined.

(** X27: an entry is created only for a token that was entered and
    with which the overview could be fetched, and the entry stores that
    token under [api_token]. *)
Theorem entry_requires_overview_and_keeps_token (session : Session)
    (py_str : json -> string) (py_hash : string -> Z)
    (configured : string -> bool) (user_input : option string)
    (title : string) (entry : gmap string json) :
  ConfigFlow.async_step_user session py_str py_hash configured user_input
    = ConfigFlow.CreateEntry title entry ->
  exists token overview,
    user_input = Some token /\
    get_overview session (new_client token None) None = Ok overview /\
    entry !! "api_token" = Some (JStr token).
Proof.
  unfold ConfigFlow.async_step_user.
  destruct user_input as [token|]; [|discriminate].
  match goal with
  | |- match ?a with _ => _ end = _ -> _ => destruct a as [flow|e] eqn:E
  end.
  - intros ->. exists token.
    apply bind_Ok_inv in E as (overview & Ho & E). exists overview.
    split; [reflexivity|]. split; [exact Ho|].
    apply bind_Ok_inv in E as (info & _ & E).
    apply bind_Ok_inv in E as (user_id & _ & E).
    destruct (truthy user_id);
      apply bind_Ok_inv in E as (_ & _ & E); injection E as _ <-;
      apply lookup_insert_eq.
  - destruct e; simpl; try discriminate.
Qed.

Lemma entry_requires_overview_and_keeps_token_witness :
  exists token overview,
    Some "secret-token" = Some token /\
    get_overview Scenario.healthy (new_client token None) None = Ok overview /\
    ({[ "api_token" := JStr "secret-token"; "user_id" := JNum 5;
        "user_name" := JStr "" ]} : gmap string json) !! "api_token"
    = Some (JStr token).
Proof.
  apply (entry_requires_overview_and_keeps_token Scenario.healthy
           (fun _ => "") (fun _ => 5) (fun _ => false)
           (Some "secret-token") "Hakuna").
  vm_compute. reflexivity.
Defined.

(** X28: looking up who the token belongs to is best effort.  When the
    overview is fetched and both the timer and the tasks fetch fail
    with Gateway errors, the step still creates an entry, titled
    "Hakuna" and holding the token alone, provided the host has no
    entry yet for the id made from the token's hash. *)
Theorem identity_lookup_is_best_effort (session : Session)
    (py_str : json -> string) (py_hash : string -> Z)
    (configured : string -> bool) (token : string)
    (overview : json) (e1 e2 : exn) :
  let api := new_client token None in
  get_overview session api None = Ok overview ->
  get_timer session api = Raise e1 -> is_HakunaApiError e1 = true ->
  get_tasks session api = Raise e2 -> is_HakunaApiError e2 = true ->
  configured ("hakuna_" ++ py_str (JNum (Z.abs (py_hash token) mod 10 ^ 8)))
    = false ->
  ConfigFlow.async_step_user session py_str py_hash configured (Some token)
  = ConfigFlow.CreateEntry "Hakuna" {[ "api_token" := JStr token ]}.
Proof.
  cbv zeta. intros Ho Ht He1 Htk He2 Hfree.
  unfold ConfigFlow.async_step_user, ConfigFlow._abort_if_unique_id_configured.
  rewrite Ho, Ht, Htk.
  cbn [mbind result_bind except_api]. rewrite He1.
  cbn [mbind result_bind except_api fst snd truthy negb]. rewrite He2.
  cbn [mbind result_bind truthy]. rewrite Hfree. reflexivity.
Qed.

Lemma identity_lookup_is_best_effort_witness :
  ConfigFlow.async_step_user Scenario.only_overview
    (fun _ => "") (fun _ => 0) (fun _ => false) (Some "secret-token")
  = ConfigFlow.CreateEntry "Hakuna" {[ "api_token" := JStr "secret-token" ]}.
Proof.
  apply (identity_lookup_is_best_effort Scenario.only_overview
           (fun _ => "") (fun _ => 0) (fun _ => false) "secret-token"
           Scenario.some_overview
           (HakunaApiError "API error 500: boom")
           (HakunaApiError "Connection error: Cannot connect to host"));
    vm_compute; reflexivity.
Defined.

(** X29: the attributes of a team sensor always name the sensor's own
    user: whatever the presence list adds, [user_id] and [user_name]
    stay those the sensor was created with. *)
Theorem team_attributes_keep_identity
    (self : BinarySensor.HakunaTeamMemberSensor)
    (coordinator : HakunaDataUpdateCoordinator)
    (attrs : gmap string json) :
  BinarySensor.team_extra_state_attributes self coordinator = Ok attrs ->
  attrs !! "user_id" = Some (BinarySensor._user_id self) /\
  attrs !! "user_name" = Some (BinarySensor._user_name self).
Proof.
  unfold BinarySensor.team_extra_state_attributes. intros H.
  destruct (data coordinator) as [snapshot|].
  - apply bind_Ok_inv in H as (members & _ & H).
    apply bind_Ok_inv in H as (found & _ & H).
    destruct found as [[member user]|].
    + apply bind_Ok_inv in H as (v1 & _ & H).
      apply bind_Ok_inv in H as (v2 & _ & H).
      apply bind_Ok_inv in H as (v3 & _ & H).
      apply bind_Ok_inv in H as (v4 & _ & H).
      injection H as <-.
      split; repeat (rewrite lookup_insert_ne by discriminate);
        [apply lookup_insert_eq|].
      apply lookup_singleton_eq.
    + injection H as <-. split;
        repeat (rewrite lookup_insert_ne by discriminate);
        [apply lookup_insert_eq | apply lookup_singleton_eq].
  - injection H as <-. split;
      repeat (rewrite lookup_insert_ne by discriminate);
      [apply lookup_insert_eq | apply lookup_singleton_eq].
Qed.

Lemma team_attributes_keep_identity_witness :
  exists attrs,
    BinarySensor.team_extra_state_attributes
      {| BinarySensor._user_id := JNum 7;
         BinarySensor._user_name := JStr "Ada" |}
      Scenario.team_coordinator = Ok attrs /\
    attrs !! "user_id" = Some (JNum 7) /\
    attrs !! "user_name" = Some (JStr "Ada").
Proof.
  destruct (BinarySensor.team_extra_state_attributes
              {| BinarySensor._user_id := JNum 7;
                 BinarySensor._user_name := JStr "Ada" |}
              Scenario.team_coordinator) as [attrs|e] eqn:E;
    [|vm_compute in E; discriminate E].
  exists attrs. split; [reflexivity|].
  apply (team_attributes_keep_identity _ _ _ E).
Defined.
